(** * WGAN-GP training script ([src/celeba/train_wgan_gp.py])

    A shallow embedding of the device selector, the gradient-penalty
    estimator, the two loss functions and the training loop, and the
    properties the specification states about them.

    Numbers.  The program computes on [float32] tensors.  Tensor elements
    are modelled as real numbers: rounding, overflow and infinities are
    not represented.  The one operation of the program that has no value
    in exact arithmetic, the mean of a tensor without elements (PyTorch
    returns [nan]), is kept: a 0-dimensional result is a [scalar], either
    [Num r] or [NaN].  The interpolation of the gradient penalty and the
    penalty of a given gradient (lines 74 to 76) are also given on IEEE 754
    binary32 numbers, with the Standard Library's specification of
    floating-point arithmetic, to tell what rounding and overflow do to
    them.

    Tensors.  An image batch of shape (B, C, H, W) is a list of B samples,
    each the row-major list of its C*H*W components; this is the layout
    [view(B, -1)] gives.  The elementwise operations are modelled on
    operands of equal shape; on other operands PyTorch either raises or
    broadcasts singleton dimensions, and the model raises. *)

From Stdlib Require Import Reals Lra Lia ZArith SpecFloat.
From stdpp Require Import base option list strings gmap.

#[local] Open Scope R_scope.

(** ** Exceptions and the state-and-exception monad *)

(** The Python exceptions that the modelled code can raise. *)
Inductive exn : Set :=
| RuntimeError       (* raised by torch: shapes, autograd, view *)
| UnboundLocalError. (* read of a local variable that was never bound *)

(** A computation over a store [S] ends with a value or with an exception;
    the store at that point is kept in both cases. *)
Inductive outcome (S A : Type) : Type :=
| Ok (a : A) (s : S)
| Raise (e : exn) (s : S).
Arguments Ok {S A} a s.
Arguments Raise {S A} e s.

Definition M (S A : Type) : Type := S -> outcome S A.

#[global] Instance M_ret {S} : MRet (M S) := fun A a s => Ok a s.

#[global] Instance M_bind {S} : MBind (M S) := fun A B k m s =>
  match m s with
  | Ok a s' => k a s'
  | Raise e s' => Raise e s'
  end.

Definition raise {S A} (e : exn) : M S A := fun s => Raise e s.

Definition get {S} : M S S := fun s => Ok s s.

(** The store a computation ended in. *)
Definition final {S A} (o : outcome S A) : S :=
  match o with Ok _ s => s | Raise _ s => s end.

(** Post-composition on the returned value. *)
Definition outcome_map {S A B} (f : A -> B) (o : outcome S A) : outcome S B :=
  match o with Ok a s => Ok (f a) s | Raise e s => Raise e s end.

(** ** Scalars and tensors *)

Inductive scalar : Type :=
| Num (r : R)
| NaN.

Definition sadd (a b : scalar) : scalar :=
  match a, b with Num x, Num y => Num (x + y) | _, _ => NaN end.
Definition ssub (a b : scalar) : scalar :=
  match a, b with Num x, Num y => Num (x - y) | _, _ => NaN end.
Definition sneg (a : scalar) : scalar :=
  match a with Num x => Num (- x) | NaN => NaN end.
(** [c * t] for a Python number [c] and a 0-dimensional tensor [t], on the
    idealised elements: [t] is never infinite, and [0 * t] is 0. *)
Definition smul (c : R) (a : scalar) : scalar :=
  match a with Num x => Num (c * x) | NaN => NaN end.

(** One image, flattened; a batch of images. *)
Abbreviation sample := (list R).
Abbreviation batch := (list (list R)).

Definition same_shape (x y : batch) : Prop :=
  Forall2 (fun a b : sample => length a = length b) x y.

#[global] Instance same_shape_dec (x y : batch) : Decision (same_shape x y).
Proof. unfold same_shape. apply Forall2_dec. intros a b. apply _. Defined.

Definition Rsum (l : list R) : R := foldr Rplus 0 l.

(** [torch.mean] / [Tensor.mean] over all elements. *)
Definition mean (l : list R) : scalar :=
  match l with
  | [] => NaN
  | _ :: _ => Num (Rsum l / INR (length l))
  end.

(** [Tensor.norm(2, dim=1)] on one row. *)
Definition norm2 (row : list R) : R := sqrt (Rsum (map (fun x => x * x) row)).

(** [Tensor.clamp(min=m)] on one element. *)
Definition clamp_min (m x : R) : R := Rmax x m.

(** [Tensor.float()]: a change of element type, the identity on the
    idealised elements. *)
Definition float (x : batch) : batch := x.

(** ** Random numbers

    The state of the global generator is the stream of uniform variates
    it is going to produce.  [torch.rand((n, 1, 1, 1))] takes the next [n]
    of them, one per sample. *)
Definition rng : Type := nat -> R.

Definition uniform (n : nat) (g : rng) : list R := map g (seq 0 n).
Definition advance (n : nat) (g : rng) : rng := fun i => g (n + i)%nat.

Definition torch_rand (n : nat) : M rng (list R) :=
  fun g => Ok (uniform n g) (advance n g).

(** ** Critics

    A critic is used in two ways: it is called on a batch, and
    [torch.autograd.grad] differentiates the sum of its scores with respect
    to that batch ([grad_outputs] is all ones).  [input_gradient] is what
    autograd returns, a tensor to be viewed per sample, or [None] when
    autograd raises (the scores do not depend on the input).  Nothing is
    assumed about it, so the results hold for whatever autograd
    computes. *)
Record critic : Type := Critic {
  forward : batch -> list R;
  input_gradient : batch -> option batch;
}.

Inductive device : Set := cuda | mps | cpu.

(** ** Gradient penalty *)

(** [alpha * real_samples + ((1 - alpha) * fake_samples)], with [alpha] of
    shape (B, 1, 1, 1) broadcast over the components of each sample. *)
Definition interpolate_with {T} (mul add : T -> T -> T) (one_minus : T -> T)
    (alpha : list T) (real_samples fake_samples : list (list T)) : list (list T) :=
  zip_with (zip_with add)
    (zip_with (fun a x => map (mul a) x) alpha real_samples)
    (zip_with (fun a x => map (mul a) x) (map one_minus alpha) fake_samples).

(** On the idealised elements. *)
Definition interpolate (alpha : list R) (real_samples fake_samples : batch) : batch :=
  interpolate_with Rmult Rplus (fun a => 1 - a) alpha real_samples fake_samples.

(** On [float32] elements: IEEE 754 binary32, precision 24 and maximal
    exponent 128, every operation rounded to nearest, ties to even. *)
Abbreviation binary32 := spec_float.

Definition f32_add : binary32 -> binary32 -> binary32 := SFadd 24 128.
Definition f32_sub : binary32 -> binary32 -> binary32 := SFsub 24 128.
Definition f32_mul : binary32 -> binary32 -> binary32 := SFmul 24 128.
Definition f32_zero : binary32 := S754_zero false.
Definition f32_one : binary32 := SFone 24 128.

Definition interpolate32 (alpha : list binary32)
    (real_samples fake_samples : list (list binary32)) : list (list binary32) :=
  interpolate_with f32_mul f32_add (f32_sub f32_one) alpha real_samples fake_samples.

(** [gradients.view(gradients.size(0), -1)]: one row per sample.  With no
    sample the size that [-1] stands for is ambiguous and [view] raises. *)
Definition view_rows (gradients : batch) : M rng batch :=
  match gradients with
  | [] => raise RuntimeError
  | _ :: _ => mret gradients
  end.

Definition gradient_penalty (D : critic) (real_samples fake_samples : batch)
    (dev : device) (factor : R) : M rng scalar :=
  let real_samples := float real_samples in
  let fake_samples := float fake_samples in
  let batch_size := length real_samples in
  alpha ← torch_rand batch_size;
  if decide (same_shape real_samples fake_samples) then
    let interpolates := interpolate alpha real_samples fake_samples in
    let d_interpolates := forward D interpolates in
    match input_gradient D interpolates with
    | None => raise RuntimeError
    | Some gradients =>
        gradients ← view_rows gradients;
        let gradient_norms := map (fun row => clamp_min (1 / 1000000) (norm2 row)) gradients in
        let gradient_penalty := mean (map (fun n => (n - 1) ^ 2) gradient_norms) in
        mret (smul factor gradient_penalty)
    end
  else raise RuntimeError.

(** *** The penalty on [float32] elements

    Lines 74 to 76 on binary32 numbers, for the gradient as autograd returned
    it and [view] arranged it, one row per sample.  Sums run in index
    order. *)
Definition f32_div : binary32 -> binary32 -> binary32 := SFdiv 24 128.
Definition f32_sqrt : binary32 -> binary32 := SFsqrt 24 128.

(** The [float32] value of a count. *)
Definition f32_of_nat (n : nat) : binary32 := binary_normalize 24 128 (Z.of_nat n) 0 false.

Definition f32_sum (l : list binary32) : binary32 := fold_left f32_add l f32_zero.

(** [Tensor.mean()]; 0 / 0, which is [nan], on a tensor without elements. *)
Definition f32_mean (l : list binary32) : binary32 :=
  f32_div (f32_sum l) (f32_of_nat (length l)).

(** [Tensor.norm(2, dim=1)] on one row. *)
Definition f32_norm2 (row : list binary32) : binary32 :=
  f32_sqrt (f32_sum (map (fun x => f32_mul x x) row)).

(** [Tensor.clamp(min=m)] on one element; [nan] stays [nan]. *)
Definition f32_clamp_min (m x : binary32) : binary32 := if SFltb x m then m else x.

(** The [float32] nearest to 1e-6. *)
Definition f32_1e_6 : binary32 := S754_finite false 8796093 (-43).

Definition gradient_norms32 (gradients : list (list binary32)) : list binary32 :=
  map (fun row => f32_clamp_min f32_1e_6 (f32_norm2 row)) gradients.

(** [factor] is the Python number converted to [float32]; [** 2] is a
    product. *)
Definition gradient_penalty32 (factor : binary32) (gradients : list (list binary32))
    : binary32 :=
  let gradient_norms := gradient_norms32 gradients in
  let gradient_penalty :=
    f32_mean (map (fun n => let d := f32_sub n f32_one in f32_mul d d) gradient_norms) in
  f32_mul factor gradient_penalty.

(** ** Losses *)

Definition critic_loss (D : critic) (real_samples fake_samples : batch)
    (dev : device) (factor : R) : M rng scalar :=
  let loss := ssub (mean (forward D fake_samples)) (mean (forward D real_samples)) in
  gp ← gradient_penalty D real_samples fake_samples dev factor;
  mret (sadd loss gp).

(** The default of the keyword argument [factor]. *)
Definition default_factor : R := 10.

Definition generator_loss (D : critic) (fake_samples : batch) : scalar :=
  let loss := sneg (mean (forward D fake_samples)) in
  loss.

(** ** The training loop

    [train] is modelled at the level of the operations it issues: tensors
    are terms that record how they were computed, and the store records
    what the loop can change (generator position, parameters, accumulated
    gradients, local variables, files) and the sequence of calls made to
    the optimizers, the autograd engine, the summary writer, the logger and
    [torch.save].  The calls into the networks, autograd, the optimizers
    and the file system are taken to succeed (a failing one raises and ends
    the call); the exception the loop itself can raise, the read of a local
    variable that no iteration has bound, is modelled. *)

Inductive net : Set := netG | netD.

Inductive value : Type :=
| RealBatch (epoch : Z) (i : nat)        (* i-th batch of the loader in that epoch *)
| Randn (k n : nat)                      (* k-th draw of the generator, n samples *)
| Gen (version : nat) (z : value) (graph : bool)
    (* G(z) with the generator's parameters after [version] steps;
       [graph] tells whether the result is attached to G's graph *)
| CriticLoss (version : nat) (real_img fake : value) (alpha : nat) (factor : R)
    (* critic_loss with D's parameters after [version] steps, the
       interpolation coefficients being the draw number [alpha] *)
| GeneratorLoss (version : nat) (fake : value)
| Rescaled (v : value).                  (* (v + 1) / 2 *)

Inductive log_record : Type :=
| LogSaved (gw dw : string)
| LogEpoch (number : Z) (d_loss g_loss : value).

Inductive event : Type :=
| EvSummaryWriter (logdir : string)
| EvTo (n : net) (d : device)
| EvAdam (n : net) (lr : R) (betas : R * R)
| EvToDevice (v : value) (d : device)
| EvZeroGrad (n : net)
| EvBackward (loss : value)
| EvStep (n : net) (grads : list value)  (* the content of .grad at the step *)
| EvAddScalar (tag : string) (v : value) (step : Z)
| EvAddImages (tag : string) (v : value) (step : Z)
| EvSave (n : net) (version : nat) (path : string)
| EvLogInfo (r : log_record)
| EvClose.

Record world : Type := World {
  cuda_is_available : bool;        (* torch.cuda.is_available() *)
  mps_is_available : bool;         (* torch.backends.mps.is_available() *)
  wallclock : nat -> string;       (* datetime.now().strftime("%Y%m%d%H%M%S") at each instant *)
  instant : nat;
  draws : nat;                     (* tensors drawn from the global generator so far *)
  steps_G : nat;                   (* optimizer steps applied to G's parameters *)
  steps_D : nat;                   (* optimizer steps applied to D's parameters *)
  grad_G : list value;             (* losses accumulated in .grad of G's parameters *)
  grad_D : list value;             (* losses accumulated in .grad of D's parameters *)
  writer_step : Z;                 (* local variable of train *)
  loss_D : option value;           (* local variable of train, None while unbound *)
  loss_G : option value;           (* local variable of train, None while unbound *)
  trace : list event;
  files : gmap string (net * nat); (* path to the parameters saved there *)
}.

Definition get_device : M world device :=
  fun w =>
    if cuda_is_available w then Ok cuda w
    else if mps_is_available w then Ok mps w
    else Ok cpu w.

Definition datetime_now : M world string :=
  fun w => Ok (wallclock w (instant w)) w.

(** A call with an effect outside the process's tensors; it takes time. *)
Definition emit (e : event) : M world unit :=
  fun w => Ok tt
    (World (cuda_is_available w) (mps_is_available w) (wallclock w) (S (instant w))
       (draws w) (steps_G w) (steps_D w) (grad_G w) (grad_D w)
       (writer_step w) (loss_D w) (loss_G w) (trace w ++ [e]) (files w)).

Definition next_draw : M world nat :=
  fun w => Ok (draws w)
    (World (cuda_is_available w) (mps_is_available w) (wallclock w) (instant w)
       (S (draws w)) (steps_G w) (steps_D w) (grad_G w) (grad_D w)
       (writer_step w) (loss_D w) (loss_G w) (trace w) (files w)).

Definition set_grads (gG gD : list value) : M world unit :=
  fun w => Ok tt
    (World (cuda_is_available w) (mps_is_available w) (wallclock w) (instant w)
       (draws w) (steps_G w) (steps_D w) gG gD
       (writer_step w) (loss_D w) (loss_G w) (trace w) (files w)).

Definition set_steps (sG sD : nat) : M world unit :=
  fun w => Ok tt
    (World (cuda_is_available w) (mps_is_available w) (wallclock w) (instant w)
       (draws w) sG sD (grad_G w) (grad_D w)
       (writer_step w) (loss_D w) (loss_G w) (trace w) (files w)).

Definition set_locals (step : Z) (lD lG : option value) : M world unit :=
  fun w => Ok tt
    (World (cuda_is_available w) (mps_is_available w) (wallclock w) (instant w)
       (draws w) (steps_G w) (steps_D w) (grad_G w) (grad_D w)
       step lD lG (trace w) (files w)).

Definition set_files (fs : gmap string (net * nat)) : M world unit :=
  fun w => Ok tt
    (World (cuda_is_available w) (mps_is_available w) (wallclock w) (instant w)
       (draws w) (steps_G w) (steps_D w) (grad_G w) (grad_D w)
       (writer_step w) (loss_D w) (loss_G w) (trace w) fs).

(** [optimizer.zero_grad()] *)
Definition zero_grad (n : net) : M world unit :=
  w ← get;
  match n with
  | netG => set_grads [] (grad_D w)
  | netD => set_grads (grad_G w) []
  end;;
  emit (EvZeroGrad n).

(** [torch.randn(n, 100, 1, 1, device=device)] *)
Definition torch_randn (n : nat) : M world value :=
  k ← next_draw; mret (Randn k n).

(** [G(z)]; [graph] is false for [G(z).detach()] and under [torch.no_grad()]. *)
Definition G_call (z : value) (graph : bool) : M world value :=
  w ← get; mret (Gen (steps_G w) z graph).

(** [critic_loss(D, real_img, gen_img, device=device, factor=factor)]: calls
    D and draws the interpolation coefficients.  The call is taken to
    return, as the other calls into the networks and autograd are: the
    batches are taken to hold at least one image ([critic_loss] raises on a
    batch without images). *)
Definition critic_loss_term (real_img fake : value) (factor : R) : M world value :=
  w ← get; alpha ← next_draw; mret (CriticLoss (steps_D w) real_img fake alpha factor).

(** [generator_loss(D, fake_img)] *)
Definition generator_loss_term (fake : value) : M world value :=
  w ← get; mret (GeneratorLoss (steps_D w) fake).

(** Whether a loss depends on G's parameters through autograd's graph. *)
Definition reaches_G (loss : value) : bool :=
  match loss with
  | CriticLoss _ _ (Gen _ _ graph) _ _ => graph
  | GeneratorLoss _ (Gen _ _ graph) => graph
  | _ => false
  end.

(** [loss.backward()]: adds the gradient of the loss to .grad of every
    parameter the loss depends on; both losses depend on D's parameters. *)
Definition backward (loss : value) : M world unit :=
  w ← get;
  set_grads (if reaches_G loss then grad_G w ++ [loss] else grad_G w)
            (grad_D w ++ [loss]);;
  emit (EvBackward loss).

(** [optimizer.step()] *)
Definition optimizer_step (n : net) : M world unit :=
  w ← get;
  match n with
  | netG => set_steps (S (steps_G w)) (steps_D w);; emit (EvStep netG (grad_G w))
  | netD => set_steps (steps_G w) (S (steps_D w));; emit (EvStep netD (grad_D w))
  end.

(** Reading a local variable raises while it is unbound. *)
Definition read_local (x : world -> option value) : M world value :=
  w ← get;
  match x w with
  | Some v => mret v
  | None => raise UnboundLocalError
  end.

(** [torch.save(net.state_dict(), path)] *)
Definition torch_save (n : net) (path : string) : M world unit :=
  w ← get;
  let version := match n with netG => steps_G w | netD => steps_D w end in
  set_files (<[path := (n, version)]> (files w));;
  emit (EvSave n version path).

(** [for x in l: body] over a finite sequence. *)
Fixpoint for_each {S A} (l : list A) (body : A -> M S unit) : M S unit :=
  match l with
  | [] => mret tt
  | x :: l' => body x;; for_each l' body
  end.

(** The values [range(stop)] yields; none when [stop <= 0]. *)
Definition range (stop : Z) : list Z := seqZ 0 stop.

(** [enumerate]: the loader's batches with their position. *)
Definition enumerate {A} (l : list A) : list (nat * A) := imap (fun i x => (i, x)) l.

(** The argument [epochs: Union[int, Literal["inf"]]]. *)
Inductive epochs_arg : Set :=
| EpochsInt (n : Z)
| EpochsInf.

(** The arguments of [train] other than the two networks.  The loader is
    a finite sequence of batches that can be iterated again in every epoch;
    a batch is represented by its size. *)
Record config : Type := Config {
  loader : list nat;
  epochs : epochs_arg;
  n_critic : Z;
  lr : R;
  betas : R * R;
  factor : R;
}.

(** The defaults of the keyword arguments. *)
Definition default_config (loader : list nat) : config :=
  Config loader (EpochsInt 100) 5 (5 / 100000) (5 / 10, 999 / 1000) 10.

(** The iterator behind [epochs_range]: of [range(epochs)], or of
    [itertools.count()]. *)
Inductive iterator : Set :=
| RangeIter (i stop : Z)
| CountIter (i : Z).

Definition epochs_range (a : epochs_arg) : iterator :=
  match a with
  | EpochsInf => CountIter 0
  | EpochsInt n => RangeIter 0 n
  end.

(** [next(it)]: [None] stands for StopIteration. *)
Definition next (it : iterator) : option (Z * iterator) :=
  match it with
  | RangeIter i stop =>
      if (i <? stop)%Z then Some (i, RangeIter (i + 1) stop) else None
  | CountIter i => Some (i, CountIter (i + 1))
  end.

(** One pass of [for _ in range(n_critic)] ("Train discriminator / critic"). *)
Definition critic_update (cfg : config) (dev : device) (real_img : value)
    (batch_size : nat) : M world unit :=
  zero_grad netD;;
  z ← torch_randn batch_size;
  gen_img ← G_call z false;
  loss ← critic_loss_term real_img gen_img (factor cfg);
  w ← get; set_locals (writer_step w) (Some loss) (loss_G w);;
  backward loss;;
  optimizer_step netD.

(** "Train generator" *)
Definition generator_update (batch_size : nat) : M world unit :=
  zero_grad netG;;
  z ← torch_randn batch_size;
  fake_img ← G_call z true;
  loss ← generator_loss_term fake_img;
  w ← get; set_locals (writer_step w) (loss_D w) (Some loss);;
  backward loss;;
  optimizer_step netG.

(** "Log losses to TensorBoard" *)
Definition log_losses : M world unit :=
  d_item ← read_local loss_D;
  w ← get; emit (EvAddScalar "Loss/Critic" d_item (writer_step w));;
  g_item ← read_local loss_G;
  w ← get; emit (EvAddScalar "Loss/Generator" g_item (writer_step w));;
  w ← get; set_locals (writer_step w + 1) (loss_D w) (loss_G w).

(** The body of [for real_img, _ in tqdm(loader, ...)]. *)
Definition train_batch (cfg : config) (dev : device) (epoch : Z)
    (b : nat * nat) : M world unit :=
  let real_img := RealBatch epoch b.1 in
  emit (EvToDevice real_img dev);;
  let batch_size := b.2 in
  for_each (range (n_critic cfg))
    (fun _ => critic_update cfg dev real_img batch_size);;
  generator_update batch_size;;
  log_losses.

Definition gw_path (timestamp : string) : string :=
  "./snapshots/gw_" +:+ timestamp +:+ ".pth".
Definition dw_path (timestamp : string) : string :=
  "./snapshots/dw_" +:+ timestamp +:+ ".pth".

(** "Log sample images" *)
Definition log_sample_images (epoch : Z) : M world unit :=
  sample_z ← torch_randn 8;
  sample_images ← G_call sample_z false;
  let sample_images := Rescaled sample_images in
  emit (EvAddImages "Generated Images" sample_images epoch).

(** "Save models", and the log record that follows *)
Definition save_models (timestamp : string) : M world unit :=
  torch_save netG (gw_path timestamp);;
  torch_save netD (dw_path timestamp);;
  emit (EvLogInfo (LogSaved ("snapshots/gw_" +:+ timestamp +:+ ".pth")
                            ("snapshots/dw_" +:+ timestamp +:+ ".pth"))).

(** The log record that ends an epoch *)
Definition log_epoch (epoch : Z) : M world unit :=
  d_item ← read_local loss_D;
  g_item ← read_local loss_G;
  emit (EvLogInfo (LogEpoch (epoch + 1) d_item g_item)).

(** The body of [for epoch in epochs_range]. *)
Definition train_epoch (cfg : config) (timestamp : string) (dev : device)
    (epoch : Z) : M world unit :=
  for_each (enumerate (loader cfg)) (train_batch cfg dev epoch);;
  log_sample_images epoch;;
  save_models timestamp;;
  log_epoch epoch.

(** How far a loop that may run forever has come after a bounded number of
    iterations: it has left the loop, normally or by an exception, or it is
    still iterating. *)
Inductive run : Type :=
| Finished (o : outcome world unit)
| Running (w : world).

(** [for epoch in epochs_range: body], cut off after [fuel] iterations. *)
Fixpoint for_epochs (fuel : nat) (it : iterator) (body : Z -> M world unit)
    (w : world) : run :=
  match next it with
  | None => Finished (Ok tt w)
  | Some (epoch, it') =>
      match fuel with
      | O => Running w
      | S fuel' =>
          match body epoch w with
          | Ok _ w' => for_epochs fuel' it' body w'
          | Raise e w' => Finished (Raise e w')
          end
      end
  end.

(** What precedes the loop over the epochs.  A call starts with its local
    variables unbound. *)
Definition train_setup (cfg : config) : M world (string * device) :=
  set_locals 0 None None;;
  timestamp ← datetime_now;
  emit (EvSummaryWriter ("runs/wgan_wc_" +:+ timestamp));;
  dev ← get_device;
  emit (EvTo netG dev);;
  emit (EvTo netD dev);;
  emit (EvAdam netG (lr cfg) (betas cfg));;
  emit (EvAdam netD (lr cfg) (betas cfg));;
  mret (timestamp, dev).

Definition train (cfg : config) (fuel : nat) (w : world) : run :=
  match train_setup cfg w with
  | Raise e w1 => Finished (Raise e w1)
  | Ok (timestamp, dev) w1 =>
      match for_epochs fuel (epochs_range (epochs cfg))
              (train_epoch cfg timestamp dev) w1 with
      | Running w2 => Running w2
      | Finished (Raise e w2) => Finished (Raise e w2)
      | Finished (Ok _ w2) => Finished (emit EvClose w2)
      end
  end.

(** The store a run has reached. *)
Definition reached (r : run) : world :=
  match r with Finished o => final o | Running w => w end.

(** ** Auxiliary definitions for the statements *)

(** The summand of the penalty for one row of the gradient. *)
Definition penalty_term (row : list R) : R :=
  (clamp_min (1 / 1000000) (norm2 row) - 1) ^ 2.

(** A critic that scores a sample by the sum of its components; the
    gradient of the summed scores is 1 in every component. *)
Definition sum_critic : critic :=
  Critic (fun x => map Rsum x) (fun x => Some (map (map (fun _ => 1)) x)).

(** Two binary32 numbers: 9857966 / 2^24 = 0.5875805616378784, a value of
    [torch.rand], and 15886393 / 2^24 = 0.9469028115272522. *)
Definition alpha_example : binary32 := S754_finite false 9857966 (-24).
Definition pixel_example : binary32 := S754_finite false 15886393 (-24).

(** Two finite binary32 numbers: 14791142 * 2^104, the nearest to 3e38,
    and 2^70. *)
Definition steep_example : binary32 := S754_finite false 14791142 104.
Definition two_pow_70 : binary32 := S754_finite false 8388608 47.

(** A generator state whose variates are all one half. *)
Definition halves : rng := fun _ => 1 / 2.

(** The critic loss of a critic update that starts with the generator's
    parameters at version [sG], the critic's at version [sD] and the random
    generator at draw [k]: the noise is draw [k], the generated batch is
    detached, the interpolation coefficients are draw [k + 1]. *)
Definition critic_loss_at (cfg : config) (real_img : value) (B sG sD k : nat) : value :=
  CriticLoss sD real_img (Gen sG (Randn k B) false) (S k) (factor cfg).

(** What one critic update issues: the gradients are reset, the loss is
    backpropagated, the optimizer steps on the gradient of that loss alone. *)
Definition critic_step_events (loss : value) : list event :=
  [EvZeroGrad netD; EvBackward loss; EvStep netD [loss]].

(** [n] critic updates in a row: each starts from the critic's next version
    and takes the next two draws. *)
Fixpoint critic_steps (cfg : config) (real_img : value) (B sG sD k n : nat)
    : list event :=
  match n with
  | O => []
  | S n' =>
      critic_step_events (critic_loss_at cfg real_img B sG sD k)
      ++ critic_steps cfg real_img B sG (S sD) (S (S k)) n'
  end.

(** The generator loss on a batch generated from draw [k] and attached to
    the generator's graph. *)
Definition generator_loss_at (B sG sD k : nat) : value :=
  GeneratorLoss sD (Gen sG (Randn k B) true).

Definition generator_step_events (loss : value) : list event :=
  [EvZeroGrad netG; EvBackward loss; EvStep netG [loss]].

(** Holds of every store in which [train] starts a batch: [loss_D] is
    bound only by a critic update of the same call. *)
Definition in_train (cfg : config) (w : world) : Prop :=
  is_Some (loss_D w) -> (1 <= n_critic cfg)%Z.

(** The calls of [torch.save] in a trace. *)
Definition saves (t : list event) : list (net * string) :=
  omap (fun e => match e with EvSave n _ p => Some (n, p) | _ => None end) t.

(** The number of epoch records in a trace, one per epoch carried out. *)
Definition epochs_logged (t : list event) : nat :=
  length (omap (fun e => match e with
                         | EvLogInfo (LogEpoch number _ _) => Some number
                         | _ => None
                         end) t).

(** [w'] differs from [w] by calls that save nothing and end no epoch:
    same host, same files, and the trace has grown by events that are
    neither a [torch.save] nor an epoch record. *)
Definition quiet (w w' : world) : Prop :=
  cuda_is_available w' = cuda_is_available w /\
  mps_is_available w' = mps_is_available w /\
  wallclock w' = wallclock w /\
  files w' = files w /\
  saves (trace w') = saves (trace w) /\
  epochs_logged (trace w') = epochs_logged (trace w).

(** The two calls of [torch.save] of one epoch. *)
Definition epoch_saves (timestamp : string) : list (net * string) :=
  [(netG, gw_path timestamp); (netD, dw_path timestamp)].

(** [w'] differs from [w] by [k] rounds of saving to the two paths of
    [timestamp]: these are the only calls of [torch.save], and the files are
    those of [w] with, when [k] is not 0, the two paths holding parameters
    of the two networks. *)
Definition checkpointed (timestamp : string) (k : nat) (w w' : world) : Prop :=
  saves (trace w') = saves (trace w) ++ mjoin (replicate k (epoch_saves timestamp)) /\
  (k = 0%nat /\ files w' = files w \/
   (0 < k)%nat /\ exists vg vd,
     files w' = <[dw_path timestamp := (netD, vd)]>
                  (<[gw_path timestamp := (netG, vg)]> (files w))).

(** A store before any call: nothing drawn, no step taken, no file. *)
Definition fresh_world (cuda_ok mps_ok : bool) (clock : nat -> string) : world :=
  World cuda_ok mps_ok clock 0 0 0 0 [] [] 0 None None [] ∅.

(** A clock that shows 1 January 2025, midnight, until the first call
    that takes time, and one second later from then on. *)
Definition example_clock (t : nat) : string :=
  match t with O => "20250101000000" | S _ => "20250101000001" end.

Definition example_world : world := fresh_world false false example_clock.

(** A call on a loader that yields one batch of four images, with one
    critic update per batch. *)
Definition example_config (e : epochs_arg) : config :=
  Config [4%nat] e 1 (5 / 100000) (5 / 10, 999 / 1000) 10.

(** ** Further definitions for the statements *)

(** The critic [D] with the constant [c] added to every score; the
    gradient with respect to the input is that of [D]. *)
Definition shift_scores (c : R) (D : critic) : critic :=
  Critic (fun x => map (Rplus c) (forward D x)) (input_gradient D).

(** A critic that weighs every component of its input by 0: every score is
    0 and autograd returns a gradient of zeros. *)
Definition flat_critic : critic :=
  Critic (fun x => map (fun _ => 0) x) (fun x => Some (map (map (fun _ => 0)) x)).

(** ** Pixel scaling *)

(** [transforms.Normalize((0.5, 0.5, 0.5), (0.5, 0.5, 0.5))]: every
    component [v] becomes [(v - mean) / std], with 0.5 for both on each of the
    three channels. *)
Definition normalize (x : batch) : batch :=
  map (map (fun v => (v - 5 / 10) / (5 / 10))) x.

(** [(sample_images + 1) / 2], the rescaling of the generated images
    before they are logged. *)
Definition rescale (x : batch) : batch :=
  map (map (fun v => (v + 1) / 2)) x.

(** ** What a run shows to the outside *)

(** The calls of a trace to the summary writer, to [.to(device)], to
    [torch.save] and to the logger, without the tensors and parameters they
    carry. *)
Inductive note : Type :=
| NWriter (logdir : string)          (* SummaryWriter(logdir) *)
| NMove (d : device)                 (* .to(device) *)
| NScalar (tag : string) (step : Z)  (* writer.add_scalar(tag, _, step) *)
| NImages (step : Z)                 (* writer.add_images(_, _, step) *)
| NSave (n : net) (path : string)    (* torch.save(_, path) *)
| NSaved (gw dw : string)            (* logging.info("Saved models to gw and dw") *)
| NEpoch (number : Z)                (* logging.info("Epoch #number, ...") *)
| NClose.                            (* writer.close() *)

Definition note_of (e : event) : option note :=
  match e with
  | EvSummaryWriter logdir => Some (NWriter logdir)
  | EvTo _ d | EvToDevice _ d => Some (NMove d)
  | EvAddScalar tag _ step => Some (NScalar tag step)
  | EvAddImages _ _ step => Some (NImages step)
  | EvSave n _ path => Some (NSave n path)
  | EvLogInfo (LogSaved gw dw) => Some (NSaved gw dw)
  | EvLogInfo (LogEpoch number _ _) => Some (NEpoch number)
  | EvClose => Some NClose
  | _ => None
  end.

Definition notes (t : list event) : list note := omap note_of t.

(** What one batch shows when the step counter is [step]. *)
Definition batch_notes (dev : device) (step : Z) : list note :=
  [NMove dev; NScalar "Loss/Critic" step; NScalar "Loss/Generator" step].

(** What [batches] batches in a row show, the first at [first_step]. *)
Definition batches_notes (dev : device) (first_step : Z) (batches : nat) : list note :=
  concat (map (fun k => batch_notes dev (first_step + Z.of_nat k)) (seq 0 batches)).

(** What the epoch with index [epoch] shows on a loader of [batches]
    batches. *)
Definition epoch_notes (timestamp : string) (dev : device) (batches : nat)
    (first_step epoch : Z) : list note :=
  batches_notes dev first_step batches
  ++ [NImages epoch; NSave netG (gw_path timestamp); NSave netD (dw_path timestamp);
      NSaved ("snapshots/gw_" +:+ timestamp +:+ ".pth")
             ("snapshots/dw_" +:+ timestamp +:+ ".pth");
      NEpoch (epoch + 1)].

(** What [count] epochs in a row show, the first with index [epoch]. *)
Definition epochs_notes (timestamp : string) (dev : device) (batches : nat)
    (first_step epoch : Z) (count : nat) : list note :=
  concat (map (fun j => epoch_notes timestamp dev batches
                          (first_step + Z.of_nat (j * batches)) (epoch + Z.of_nat j))
              (seq 0 count)).

(** What precedes the first epoch. *)
Definition setup_notes (timestamp : string) (dev : device) : list note :=
  [NWriter ("runs/wgan_wc_" +:+ timestamp); NMove dev; NMove dev].

(** The device [get_device] selects in a store. *)
Definition selected_device (w : world) : device :=
  if cuda_is_available w then cuda else if mps_is_available w then mps else cpu.

(** [w'] is [w] after [batches] batches and [epochs] epochs that showed
    [shown]: the step counter, the parameter versions and the position of the
    random generator have advanced accordingly. *)
Definition advanced (cfg : config) (batches epochs : nat) (shown : list note)
    (w w' : world) : Prop :=
  notes (trace w') = notes (trace w) ++ shown /\
  writer_step w' = (writer_step w + Z.of_nat batches)%Z /\
  steps_G w' = (steps_G w + batches)%nat /\
  steps_D w' = (steps_D w + batches * Z.to_nat (n_critic cfg))%nat /\
  draws w' = (draws w + batches * (2 * Z.to_nat (n_critic cfg) + 1) + epochs)%nat.

(** [w'] is [w] after calls none of which closes the summary writer. *)
Definition writer_open (w w' : world) : Prop :=
  exists shown, notes (trace w') = notes (trace w) ++ shown /\
                Forall (fun n => n <> NClose) shown.

(** The index the iterator yields next. *)
Definition iter_index (it : iterator) : Z :=
  match it with RangeIter i _ | CountIter i => i end.

(** Calls on which no loss can be logged: no critic update per batch, and
    a loader that yields no batch. *)
Definition config_without_critic_update : config :=
  Config [4%nat] (EpochsInt 1) 0 (5 / 100000) (5 / 10, 999 / 1000) 10.

Definition config_with_empty_loader : config :=
  Config [] (EpochsInt 1) 5 (5 / 100000) (5 / 10, 999 / 1000) 10.

(** Evaluates the primitive operations of the training loop on a store. *)
Ltac run_prims :=
  cbv beta iota zeta delta
    [zero_grad torch_randn G_call critic_loss_term generator_loss_term
     backward optimizer_step read_local torch_save emit next_draw
     set_grads set_steps set_locals set_files get raise datetime_now
     mbind M_bind mret M_ret reaches_G
     cuda_is_available mps_is_available wallclock instant draws steps_G steps_D
     grad_G grad_D writer_step loss_D loss_G trace files].

(** * Properties *)

(** ** Arithmetic of means *)

Lemma Rsum_nonneg (l : list R) : Forall (fun x => 0 <= x) l -> 0 <= Rsum l.
Proof.
  induction 1 as [|x l Hx _ IH]; simpl; lra.
Qed.

Lemma Rsum_zero (l : list R) : Forall (fun x => x = 0) l -> Rsum l = 0.
Proof.
  induction 1 as [|x l Hx _ IH]; simpl; lra.
Qed.

Lemma INR_length_pos {A} (x : A) (l : list A) : 0 < INR (length (x :: l)).
Proof. apply lt_0_INR. simpl. lia. Qed.

Lemma mean_cons_nonneg (x : R) (l : list R) :
  Forall (fun y => 0 <= y) (x :: l) ->
  exists r, mean (x :: l) = Num r /\ 0 <= r.
Proof.
  intros Hl. eexists. split; [reflexivity|].
  apply Rsum_nonneg in Hl. pose proof (INR_length_pos x l) as Hn.
  apply Rmult_le_pos; [exact Hl|].
  left. now apply Rinv_0_lt_compat.
Qed.

Lemma mean_cons_zero (x : R) (l : list R) :
  Forall (fun y => y = 0) (x :: l) -> mean (x :: l) = Num 0.
Proof.
  intros Hl. unfold mean. rewrite (Rsum_zero _ Hl). f_equal.
  unfold Rdiv. apply Rmult_0_l.
Qed.

(** ** The gradient penalty, step by step *)

Lemma gradient_penalty_unfold D real_samples fake_samples dev factor (g : rng) :
  gradient_penalty D real_samples fake_samples dev factor g =
  let g' := advance (length real_samples) g in
  if decide (same_shape real_samples fake_samples) then
    match input_gradient D
            (interpolate (uniform (length real_samples) g) real_samples fake_samples) with
    | None | Some [] => Raise RuntimeError g'
    | Some (row :: rows) =>
        Ok (smul factor (mean (map penalty_term (row :: rows)))) g'
    end
  else Raise RuntimeError g'.
Proof.
  unfold gradient_penalty, float, mbind, M_bind, torch_rand. cbv zeta.
  destruct (decide _) as [Hs|Hs]; [|reflexivity].
  destruct (input_gradient D _) as [[|row rows]|]; try reflexivity.
  unfold view_rows, mret, M_ret. rewrite map_map. reflexivity.
Qed.

Lemma penalty_term_nonneg (row : list R) : 0 <= penalty_term row.
Proof. unfold penalty_term. apply pow2_ge_0. Qed.

Lemma penalty_term_unit (row : list R) : norm2 row = 1 -> penalty_term row = 0.
Proof.
  intros H. unfold penalty_term, clamp_min. rewrite H.
  rewrite Rmax_left by lra. simpl. ring.
Qed.

Lemma penalty_terms_nonneg (rows : list (list R)) :
  Forall (fun y => 0 <= y) (map penalty_term rows).
Proof.
  induction rows as [|row rows IH]; simpl; constructor;
    [apply penalty_term_nonneg | exact IH].
Qed.

Lemma penalty_terms_unit (rows : list (list R)) :
  Forall (fun r => norm2 r = 1) rows ->
  Forall (fun y => y = 0) (map penalty_term rows).
Proof.
  induction 1 as [|row rows Hrow _ IH]; simpl; constructor;
    [now apply penalty_term_unit | exact IH].
Qed.

(** ** The losses *)

(** C1: the critic loss is the mean score of the fake batch minus the mean
    score of the real batch plus the gradient penalty of the same call (the
    same state of the random generator), and it is a 0-dimensional value;
    it raises exactly when the gradient penalty raises. *)
Theorem critic_loss_decomposition D real_samples fake_samples dev factor (g : rng) :
  critic_loss D real_samples fake_samples dev factor g =
  outcome_map (sadd (ssub (mean (forward D fake_samples)) (mean (forward D real_samples))))
       (gradient_penalty D real_samples fake_samples dev factor g).
Proof.
  unfold critic_loss, mbind, M_bind. cbv zeta.
  destruct (gradient_penalty _ _ _ _ _ g); reflexivity.
Qed.

(** C2: the generator loss is the negated mean of the critic's scores on
    the fake batch. *)
Theorem generator_loss_negated_mean D fake_samples :
  generator_loss D fake_samples = sneg (mean (forward D fake_samples)).
Proof. reflexivity. Qed.

(** ** Interpolation *)

(** C3 (as amended): in exact arithmetic, with coefficients in [0,1], every
    component of the interpolated batch is [a * r + (1 - a) * f] for the
    coefficient [a] of its sample and the components [r] and [f] of the real
    and the fake sample at the same place, and lies between the smaller and
    the larger of the two; for batches of one shape and one coefficient per
    sample the interpolated batch has that shape. *)
Theorem interpolate_between (alpha : list R) (real_samples fake_samples : batch) :
  Forall (fun a => 0 <= a <= 1) alpha ->
  (forall b j xs x,
      interpolate alpha real_samples fake_samples !! b = Some xs ->
      xs !! j = Some x ->
      exists a rs fs r f,
        alpha !! b = Some a /\
        real_samples !! b = Some rs /\ rs !! j = Some r /\
        fake_samples !! b = Some fs /\ fs !! j = Some f /\
        x = a * r + (1 - a) * f /\
        Rmin r f <= x <= Rmax r f) /\
  (length alpha = length real_samples ->
   same_shape real_samples fake_samples ->
   same_shape (interpolate alpha real_samples fake_samples) real_samples).
Proof.
  intros Halpha. split.
  - intros b j xs x Hxs Hx. unfold interpolate, interpolate_with in Hxs.
    apply lookup_zip_with_Some in Hxs as (xr & xf & -> & Hxr & Hxf).
    apply lookup_zip_with_Some in Hxr as (a & rs & -> & Ha & Hrs).
    apply lookup_zip_with_Some in Hxf as (a' & fs & -> & Ha' & Hfs).
    rewrite list_lookup_fmap, Ha in Ha'. simpl in Ha'. inversion Ha'; subst a'.
    apply lookup_zip_with_Some in Hx as (sr & sf & -> & Hsr & Hsf).
    change (map (Rmult a) rs) with (Rmult a <$> rs) in Hsr.
    change (map (Rmult (1 - a)) fs) with (Rmult (1 - a) <$> fs) in Hsf.
    rewrite list_lookup_fmap in Hsr, Hsf.
    destruct (rs !! j) as [r|] eqn:Hr; [|discriminate].
    destruct (fs !! j) as [f|] eqn:Hf; [|discriminate].
    simpl in Hsr, Hsf. inversion Hsr; subst sr. inversion Hsf; subst sf.
    exists a, rs, fs, r, f. do 5 (split; [done|]). split; [reflexivity|].
    assert (0 <= a <= 1) as Ha01.
    { rewrite Forall_lookup in Halpha. exact (Halpha _ _ Ha). }
    unfold Rmin, Rmax. destruct (Rle_dec r f); split; nra.
  - intros Hlen Hshape. unfold interpolate, interpolate_with, same_shape in *.
    revert alpha Halpha Hlen.
    induction Hshape as [|rs fs real' fake' Hrf _ IH]; intros alpha Halpha Hlen.
    + destruct alpha; constructor.
    + destruct alpha as [|a alpha]; [discriminate|]. simpl.
      constructor.
      * rewrite length_zip_with, !length_map. lia.
      * apply IH; [by inversion Halpha | by injection Hlen].
Qed.

(** The interpolation of one real and one fake sample of one component. *)
Lemma interpolate_between_witness :
  Forall (fun a => 0 <= a <= 1) [1 / 2] /\
  same_shape (interpolate [1 / 2] [[2]] [[0]]) [[2]] /\
  exists a rs fs r f,
    [1 / 2] !! 0%nat = Some a /\
    [[2]] !! 0%nat = Some rs /\ rs !! 0%nat = Some r /\
    [[0]] !! 0%nat = Some fs /\ fs !! 0%nat = Some f /\
    1 / 2 * 2 + (1 - 1 / 2) * 0 = a * r + (1 - a) * f /\
    Rmin r f <= 1 / 2 * 2 + (1 - 1 / 2) * 0 <= Rmax r f.
Proof.
  assert (Forall (fun a => 0 <= a <= 1) [1 / 2]) as Halpha.
  { constructor; [lra | constructor]. }
  split; [exact Halpha|].
  destruct (interpolate_between [1 / 2] [[2]] [[0]] Halpha) as [Hpoint Hshape].
  split.
  - apply Hshape; [reflexivity|]. repeat constructor.
  - apply (Hpoint 0%nat 0%nat [1 / 2 * 2 + (1 - 1 / 2) * 0]); reflexivity.
Defined.

(** C3 as stated fails on [float32] tensors: with the coefficient
    0.5875805616378784 and the real and the fake component both
    0.9469028115272522, the two rounded products add up to
    0.946902871131897, one unit in the last place above both. *)
Lemma interpolate32_outside :
  SFleb f32_zero alpha_example = true /\
  SFleb alpha_example f32_one = true /\
  interpolate32 [alpha_example] [[pixel_example]] [[pixel_example]]
  = [[S754_finite false 15886394 (-24)]] /\
  SFltb pixel_example (S754_finite false 15886394 (-24)) = true.
Proof. repeat split; vm_compute; reflexivity. Qed.

(** ** The gradient penalty *)


Lemma sum_critic_unit_row : Forall (fun r => norm2 r = 1) [[1]].
Proof.
  constructor; [|constructor]. unfold norm2. simpl.
  replace (1 * 1 + 0) with 1 by ring. apply sqrt_1.
Qed.








(** ** The device selector *)

(** C6: [get_device] returns CUDA when CUDA is available, else MPS when
    MPS is available, else the CPU; it leaves the store as it is, and two
    stores with the same two flags give the same device. *)
Theorem get_device_priority (w : world) :
  (cuda_is_available w = true -> get_device w = Ok cuda w) /\
  (cuda_is_available w = false -> mps_is_available w = true ->
   get_device w = Ok mps w) /\
  (cuda_is_available w = false -> mps_is_available w = false ->
   get_device w = Ok cpu w) /\
  (forall w' : world,
      cuda_is_available w' = cuda_is_available w ->
      mps_is_available w' = mps_is_available w ->
      exists d, get_device w = Ok d w /\ get_device w' = Ok d w').
Proof.
  unfold get_device. repeat split.
  - intros ->. reflexivity.
  - intros -> ->. reflexivity.
  - intros -> ->. reflexivity.
  - intros w' -> ->.
    destruct (cuda_is_available w); [eauto|].
    destruct (mps_is_available w); eauto.
Qed.

(** ** The training loop, block by block *)

Lemma bind_run {S A B} (m : M S A) (k : A -> M S B) (s : S) :
  (m ≫= k) s = match m s with Ok a s' => k a s' | Raise e s' => Raise e s' end.
Proof. reflexivity. Qed.

Lemma critic_update_run cfg dev real_img B (w : world) :
  critic_update cfg dev real_img B w =
  let L := critic_loss_at cfg real_img B (steps_G w) (steps_D w) (draws w) in
  Ok tt (World (cuda_is_available w) (mps_is_available w) (wallclock w)
           (S (S (S (instant w)))) (S (S (draws w))) (steps_G w) (S (steps_D w))
           (grad_G w) [L] (writer_step w) (Some L) (loss_G w)
           (trace w ++ critic_step_events L) (files w)).
Proof.
  destruct w. unfold critic_update. run_prims.
  unfold critic_loss_at, critic_step_events.
  rewrite <- !app_assoc. reflexivity.
Qed.

Lemma generator_update_run B (w : world) :
  generator_update B w =
  let L := generator_loss_at B (steps_G w) (steps_D w) (draws w) in
  Ok tt (World (cuda_is_available w) (mps_is_available w) (wallclock w)
           (S (S (S (instant w)))) (S (draws w)) (S (steps_G w)) (steps_D w)
           [L] (grad_D w ++ [L]) (writer_step w) (loss_D w) (Some L)
           (trace w ++ generator_step_events L) (files w)).
Proof.
  destruct w. unfold generator_update. run_prims.
  unfold generator_loss_at, generator_step_events.
  rewrite <- !app_assoc. reflexivity.
Qed.

Lemma log_losses_run (w : world) :
  log_losses w =
  match loss_D w, loss_G w with
  | None, _ => Raise UnboundLocalError w
  | Some d, None =>
      Raise UnboundLocalError
        (World (cuda_is_available w) (mps_is_available w) (wallclock w)
           (S (instant w)) (draws w) (steps_G w) (steps_D w)
           (grad_G w) (grad_D w) (writer_step w) (loss_D w) (loss_G w)
           (trace w ++ [EvAddScalar "Loss/Critic" d (writer_step w)]) (files w))
  | Some d, Some g =>
      Ok tt
        (World (cuda_is_available w) (mps_is_available w) (wallclock w)
           (S (S (instant w))) (draws w) (steps_G w) (steps_D w)
           (grad_G w) (grad_D w) (writer_step w + 1) (loss_D w) (loss_G w)
           (trace w ++ [EvAddScalar "Loss/Critic" d (writer_step w);
                        EvAddScalar "Loss/Generator" g (writer_step w)])
           (files w))
  end.
Proof.
  destruct w as [? ? ? ? ? ? ? ? ? ? [d|] [g|] ? ?]; unfold log_losses; run_prims;
    rewrite <- ?app_assoc; reflexivity.
Qed.

Lemma critic_loop_run cfg dev real_img B (l : list Z) (w : world) :
  exists w',
    for_each l (fun _ => critic_update cfg dev real_img B) w = Ok tt w' /\
    trace w' = trace w ++ critic_steps cfg real_img B (steps_G w) (steps_D w)
                            (draws w) (length l) /\
    draws w' = (draws w + 2 * length l)%nat /\
    steps_D w' = (steps_D w + length l)%nat /\
    steps_G w' = steps_G w /\
    grad_G w' = grad_G w /\
    writer_step w' = writer_step w /\
    loss_G w' = loss_G w /\
    files w' = files w /\
    cuda_is_available w' = cuda_is_available w /\
    mps_is_available w' = mps_is_available w /\
    wallclock w' = wallclock w /\
    (l = [] -> loss_D w' = loss_D w) /\
    (l <> [] -> is_Some (loss_D w')).
Proof.
  revert w. induction l as [|x l IH]; intros w.
  - exists w. cbn. rewrite app_nil_r, !Nat.add_0_r. repeat split; try done.
  - cbn [for_each]. rewrite bind_run, critic_update_run. cbv beta iota zeta.
    match goal with |- context [for_each l _ ?w1] => destruct (IH w1) as (w' & Hrun & Htr & Hdr & HsD & HsG & HgG & Hws & HlG & Hf & Hc & Hm & Hclk & Hnil & Hcons) end.
    cbn [trace draws steps_D steps_G grad_G writer_step loss_G files
         cuda_is_available mps_is_available wallclock loss_D] in *.
    exists w'. rewrite Hrun, Htr, Hdr, HsD, HsG.
    repeat split; try done; try (cbn [length]; lia).
    + cbn [length critic_steps]. rewrite <- app_assoc. reflexivity.
    + intros _. destruct l as [|y l]; [|apply Hcons; discriminate].
      rewrite Hnil by reflexivity. eauto.
Qed.

Lemma emit_run (e : event) (w : world) :
  emit e w =
  Ok tt (World (cuda_is_available w) (mps_is_available w) (wallclock w)
           (S (instant w)) (draws w) (steps_G w) (steps_D w) (grad_G w) (grad_D w)
           (writer_step w) (loss_D w) (loss_G w) (trace w ++ [e]) (files w)).
Proof. reflexivity. Qed.

Lemma length_range (n : Z) : length (range n) = Z.to_nat n.
Proof. unfold range. apply length_seqZ. Qed.

(** ** The schedule of one batch *)

(** The [i]-th of [n] critic updates in a row starts from the critic's
    version [sD + i] and takes the draws [k + 2 i] and [k + 2 i + 1]. *)
Lemma critic_steps_closed_form cfg real_img (B sG sD k n : nat) :
  critic_steps cfg real_img B sG sD k n =
  concat (map (fun i => critic_step_events
                          (critic_loss_at cfg real_img B sG (sD + i) (k + 2 * i)))
              (seq 0 n)).
Proof.
  revert sD k. induction n as [|n IH]; intros sD k; [reflexivity|].
  cbn [critic_steps seq map concat]. rewrite IH, <- seq_shift, map_map.
  replace (sD + 0)%nat with sD by lia. replace (k + 2 * 0)%nat with k by lia.
  f_equal. f_equal. apply map_ext. intros i.
  replace (S sD + i)%nat with (sD + S i)%nat by lia.
  replace (S (S k) + 2 * i)%nat with (k + 2 * S i)%nat by lia. reflexivity.
Qed.


(** C7: a batch that [train] carries out issues, after moving the real
    batch to the device, exactly [n_critic] critic updates and then exactly
    one generator update.  Every critic update resets D's gradients,
    backpropagates a critic loss whose fake batch is generated from a draw of
    its own and detached, and steps D's optimizer on the gradient of that
    loss alone; the generator update resets G's gradients, backpropagates the
    generator loss of a batch generated from a further draw and attached to
    G's graph, and steps G's optimizer on the gradient of that loss alone. *)
Theorem train_batch_schedule cfg dev epoch (i B : nat) (w w' : world) :
  in_train cfg w ->
  train_batch cfg dev epoch (i, B) w = Ok tt w' ->
  exists (n : nat) (d_item : value),
    Z.of_nat n = n_critic cfg /\
    let real_img := RealBatch epoch i in
    let g_loss := generator_loss_at B (steps_G w) (steps_D w + n) (draws w + 2 * n) in
    trace w' =
      trace w ++ [EvToDevice real_img dev]
      ++ critic_steps cfg real_img B (steps_G w) (steps_D w) (draws w) n
      ++ generator_step_events g_loss
      ++ [EvAddScalar "Loss/Critic" d_item (writer_step w);
          EvAddScalar "Loss/Generator" g_loss (writer_step w)] /\
    steps_D w' = (steps_D w + n)%nat /\
    steps_G w' = S (steps_G w) /\
    draws w' = (draws w + 2 * n + 1)%nat.
Proof.
  intros Hin Hrun. unfold train_batch in Hrun. cbn [fst snd] in Hrun.
  rewrite bind_run, emit_run in Hrun. cbv beta iota in Hrun. rewrite bind_run in Hrun.
  match type of Hrun with context [for_each _ _ ?w0] =>
    destruct (critic_loop_run cfg dev (RealBatch epoch i) B (range (n_critic cfg)) w0)
      as (w1 & Hloop & Htr & Hdr & HsD & HsG & HgG & Hws & HlG & Hf & Hc & Hm
          & Hclk & Hnil & Hcons)
  end.
  rewrite Hloop in Hrun. cbv beta iota in Hrun.
  rewrite bind_run, generator_update_run in Hrun. cbv beta iota zeta in Hrun.
  rewrite log_losses_run in Hrun.
  cbn [trace draws steps_D steps_G grad_G writer_step loss_G files
       cuda_is_available mps_is_available wallclock loss_D instant grad_D] in *.
  destruct (loss_D w1) as [d|] eqn:Hd; [|discriminate].
  inversion Hrun; subst w'; clear Hrun.
  cbn [trace draws steps_D steps_G].
  rewrite length_range in *.
  assert (1 <= n_critic cfg)%Z as Hn.
  { destruct (range (n_critic cfg)) as [|x l] eqn:Hr.
    - apply Hin. rewrite <- Hnil by reflexivity. eauto.
    - apply (f_equal length) in Hr. rewrite length_range in Hr. cbn in Hr. lia. }
  exists (Z.to_nat (n_critic cfg)), d. split; [lia|]. cbv beta iota zeta.
  rewrite Htr, HsD, HsG, Hdr, Hws. rewrite <- !app_assoc.
  repeat split; try reflexivity; lia.
Qed.

(** ** What the loops leave untouched *)

Lemma saves_app (t1 t2 : list event) : saves (t1 ++ t2) = saves t1 ++ saves t2.
Proof. unfold saves. apply omap_app. Qed.

Lemma epochs_logged_app (t1 t2 : list event) :
  epochs_logged (t1 ++ t2) = (epochs_logged t1 + epochs_logged t2)%nat.
Proof. unfold epochs_logged. rewrite omap_app, length_app. reflexivity. Qed.

Lemma critic_steps_silent cfg real_img B sG sD k n :
  saves (critic_steps cfg real_img B sG sD k n) = [] /\
  epochs_logged (critic_steps cfg real_img B sG sD k n) = 0%nat.
Proof.
  revert sD k. induction n as [|n IH]; intros sD k; [done|].
  cbn [critic_steps]. rewrite saves_app, epochs_logged_app.
  destruct (IH (S sD) (S (S k))) as [-> ->]. done.
Qed.

Lemma quiet_refl (w : world) : quiet w w.
Proof. unfold quiet. done. Qed.

Lemma quiet_trans (w1 w2 w3 : world) : quiet w1 w2 -> quiet w2 w3 -> quiet w1 w3.
Proof. unfold quiet. intros (?&?&?&?&?&?) (?&?&?&?&?&?). repeat split; congruence. Qed.

(** One batch, however it ends. *)
Lemma train_batch_final cfg dev epoch (b : nat * nat) (w : world) :
  let o := train_batch cfg dev epoch b w in
  quiet w (final o) /\
  (in_train cfg w -> in_train cfg (final o)) /\
  (forall w', o = Ok tt w' -> is_Some (loss_D w') /\ is_Some (loss_G w')) /\
  ((1 <= n_critic cfg)%Z -> exists w', o = Ok tt w').
Proof.
  cbv beta iota zeta. unfold train_batch.
  rewrite bind_run, emit_run. cbv beta iota. rewrite bind_run.
  match goal with |- context [for_each _ _ ?w0] =>
    destruct (critic_loop_run cfg dev (RealBatch epoch b.1) b.2 (range (n_critic cfg)) w0)
      as (w1 & Hloop & Htr & Hdr & HsD & HsG & HgG & Hws & HlG & Hf & Hc & Hm
          & Hclk & Hnil & Hcons)
  end.
  rewrite Hloop. cbv beta iota.
  rewrite bind_run, generator_update_run. cbv beta iota zeta.
  rewrite log_losses_run.
  cbn [trace draws steps_D steps_G grad_G writer_step loss_G files
       cuda_is_available mps_is_available wallclock loss_D instant grad_D] in *.
  rewrite length_range in *.
  assert (loss_D w1 = None -> in_train cfg w -> in_train cfg w1) as Hin1.
  { intros Hnone _ [v Hv]. congruence. }
  assert ((1 <= n_critic cfg)%Z -> is_Some (loss_D w1)) as Hsome.
  { intros Hn. apply Hcons. intros Hr. apply (f_equal length) in Hr.
    rewrite length_range in Hr. cbn in Hr. lia. }
  assert (is_Some (loss_D w1) -> in_train cfg w -> (1 <= n_critic cfg)%Z) as Hback.
  { intros Hs Hin. destruct (range (n_critic cfg)) as [|x l] eqn:Hr.
    - apply Hin. rewrite <- Hnil by reflexivity. exact Hs.
    - apply (f_equal length) in Hr. rewrite length_range in Hr. cbn in Hr. lia. }
  destruct (critic_steps_silent cfg (RealBatch epoch b.1) b.2 (steps_G w) (steps_D w)
              (draws w) (Z.to_nat (n_critic cfg))) as [Hsv Hel].
  destruct (loss_D w1) as [d|] eqn:Hd; cbn [final].
  - unfold quiet, in_train.
    cbn [trace files cuda_is_available mps_is_available wallclock loss_D loss_G].
    rewrite Htr, !saves_app, !epochs_logged_app, Hsv, Hel, Hf, Hc, Hm, Hclk.
    cbn. rewrite !app_nil_r, !Nat.add_0_r.
    split; [done|]. split; [|split].
    + intros Hin _. apply Hback; eauto.
    + intros w' Hw'. inversion Hw'; subst w'. cbn [loss_D loss_G]. eauto.
    + eauto.
  - unfold quiet, in_train.
    cbn [trace files cuda_is_available mps_is_available wallclock loss_D loss_G].
    rewrite Htr, !saves_app, !epochs_logged_app, Hsv, Hel, Hf, Hc, Hm, Hclk.
    cbn. rewrite !app_nil_r, !Nat.add_0_r.
    split; [done|]. split; [|split].
    + intros _ [v Hv]. discriminate.
    + intros w' Hw'. discriminate.
    + intros Hn. destruct (Hsome Hn) as [v Hv]. discriminate.
Qed.

(** All the batches of an epoch, however that ends. *)
Lemma train_batches_final cfg dev epoch (l : list (nat * nat)) (w : world) :
  let o := for_each l (train_batch cfg dev epoch) w in
  quiet w (final o) /\
  (in_train cfg w -> in_train cfg (final o)) /\
  (forall w', o = Ok tt w' ->
     (l = [] /\ w' = w) \/ (is_Some (loss_D w') /\ is_Some (loss_G w'))) /\
  ((1 <= n_critic cfg)%Z -> exists w', o = Ok tt w').
Proof.
  cbv beta iota zeta. revert w. induction l as [|b l IH]; intros w.
  - cbn. split; [apply quiet_refl|]. split; [done|]. split; [|eauto].
    intros w' Hw'. left. split; [done|]. now inversion Hw'.
  - cbn [for_each]. rewrite bind_run.
    destruct (train_batch_final cfg dev epoch b w) as (Hq & Hin & Hb & Htot).
    cbv beta iota zeta in *.
    destruct (train_batch cfg dev epoch b w) as [[] w1|e w1] eqn:Hrun; cbn [final] in *.
    + destruct (IH w1) as (Hq' & Hin' & Hb' & Htot').
      split; [eauto using quiet_trans|]. split; [eauto|]. split; [|eauto].
      intros w' Hw'. right.
      destruct (Hb' w' Hw') as [[-> ->]|Hs]; [|exact Hs]. now apply Hb.
    + split; [done|]. split; [done|]. split; [discriminate|].
      intros Hn. destruct (Htot Hn) as [w' Hw']. discriminate.
Qed.

(** ** One epoch *)

Lemma log_sample_images_run epoch (w : world) :
  log_sample_images epoch w =
  Ok tt (World (cuda_is_available w) (mps_is_available w) (wallclock w)
           (S (instant w)) (S (draws w)) (steps_G w) (steps_D w) (grad_G w) (grad_D w)
           (writer_step w) (loss_D w) (loss_G w)
           (trace w ++ [EvAddImages "Generated Images"
                          (Rescaled (Gen (steps_G w) (Randn (draws w) 8) false)) epoch])
           (files w)).
Proof. destruct w. reflexivity. Qed.

Lemma save_models_run timestamp (w : world) :
  save_models timestamp w =
  Ok tt (World (cuda_is_available w) (mps_is_available w) (wallclock w)
           (S (S (S (instant w)))) (draws w) (steps_G w) (steps_D w)
           (grad_G w) (grad_D w) (writer_step w) (loss_D w) (loss_G w)
           (trace w ++ [EvSave netG (steps_G w) (gw_path timestamp);
                        EvSave netD (steps_D w) (dw_path timestamp);
                        EvLogInfo (LogSaved ("snapshots/gw_" +:+ timestamp +:+ ".pth")
                                            ("snapshots/dw_" +:+ timestamp +:+ ".pth"))])
           (<[dw_path timestamp := (netD, steps_D w)]>
              (<[gw_path timestamp := (netG, steps_G w)]> (files w)))).
Proof.
  destruct w. unfold save_models. run_prims. rewrite <- !app_assoc. reflexivity.
Qed.

Lemma log_epoch_run epoch (w : world) :
  log_epoch epoch w =
  match loss_D w, loss_G w with
  | Some d, Some g =>
      Ok tt (World (cuda_is_available w) (mps_is_available w) (wallclock w)
               (S (instant w)) (draws w) (steps_G w) (steps_D w)
               (grad_G w) (grad_D w) (writer_step w) (loss_D w) (loss_G w)
               (trace w ++ [EvLogInfo (LogEpoch (epoch + 1) d g)]) (files w))
  | _, _ => Raise UnboundLocalError w
  end.
Proof.
  destruct w as [? ? ? ? ? ? ? ? ? ? [d|] [g|] ? ?]; reflexivity.
Qed.

Lemma paths_differ (timestamp : string) : gw_path timestamp <> dw_path timestamp.
Proof. unfold gw_path, dw_path. cbn. intros H. discriminate H. Qed.

Lemma checkpointed_refl timestamp (w : world) : checkpointed timestamp 0 w w.
Proof. unfold checkpointed. cbn. rewrite app_nil_r. auto. Qed.

Lemma quiet_checkpointed timestamp k (w1 w2 w3 : world) :
  checkpointed timestamp k w1 w2 -> quiet w2 w3 -> checkpointed timestamp k w1 w3.
Proof.
  unfold checkpointed, quiet. intros [Hs Hf] (_ & _ & _ & Hf' & Hs' & _).
  rewrite Hs', Hf'. done.
Qed.

Lemma checkpointed_trans timestamp k1 k2 (w1 w2 w3 : world) :
  checkpointed timestamp k1 w1 w2 -> checkpointed timestamp k2 w2 w3 ->
  checkpointed timestamp (k1 + k2) w1 w3.
Proof.
  unfold checkpointed. intros [Hs1 Hf1] [Hs2 Hf2]. split.
  - rewrite Hs2, Hs1, replicate_add, join_app, app_assoc. reflexivity.
  - pose proof (paths_differ timestamp) as Hne.
    destruct Hf1 as [[-> Hf1]|[Hk1 (vg1 & vd1 & Hf1)]];
      destruct Hf2 as [[-> Hf2]|[Hk2 (vg2 & vd2 & Hf2)]].
    + left. split; [done|]. congruence.
    + right. split; [lia|]. exists vg2, vd2. congruence.
    + right. split; [lia|]. exists vg1, vd1. congruence.
    + right. split; [lia|]. exists vg2, vd2. rewrite Hf2, Hf1.
      rewrite (insert_insert_ne _ (gw_path timestamp) (dw_path timestamp)) by done.
      rewrite !insert_insert_eq. reflexivity.
Qed.

(** One epoch, however it ends. *)
Lemma train_epoch_final cfg timestamp dev epoch (w : world) :
  let o := train_epoch cfg timestamp dev epoch w in
  cuda_is_available (final o) = cuda_is_available w /\
  mps_is_available (final o) = mps_is_available w /\
  wallclock (final o) = wallclock w /\
  (in_train cfg w -> in_train cfg (final o)) /\
  match o with
  | Ok _ w' =>
      checkpointed timestamp 1 w w' /\
      epochs_logged (trace w') = S (epochs_logged (trace w)) /\
      files w' !! gw_path timestamp = Some (netG, steps_G w') /\
      files w' !! dw_path timestamp = Some (netD, steps_D w')
  | Raise _ w' =>
      (exists k, checkpointed timestamp k w w') /\
      epochs_logged (trace w') = epochs_logged (trace w)
  end /\
  ((1 <= n_critic cfg)%Z -> loader cfg <> [] -> exists w', o = Ok tt w').
Proof.
  cbv beta iota zeta. unfold train_epoch. rewrite bind_run.
  destruct (train_batches_final cfg dev epoch (enumerate (loader cfg)) w)
    as (Hq & Hin & Hb & Htot). cbv beta iota zeta in *.
  destruct (for_each _ _ w) as [[] w1|e w1] eqn:Hrun; cbn [final] in *.
  2:{ destruct Hq as (Hc & Hm & Hclk & Hf & Hs & Hl).
      do 3 (split; [done|]). split; [exact Hin|]. split; [split; [|done]|].
      - exists 0%nat. unfold checkpointed. cbn. rewrite app_nil_r. auto.
      - intros Hn _. destruct (Htot Hn) as [w' Hw']. discriminate. }
  cbv beta iota.
  rewrite bind_run, log_sample_images_run. cbv beta iota.
  rewrite bind_run, save_models_run. cbv beta iota. rewrite log_epoch_run.
  cbn [trace draws steps_D steps_G grad_G writer_step loss_G files
       cuda_is_available mps_is_available wallclock loss_D instant grad_D].
  destruct Hq as (Hc & Hm & Hclk & Hf & Hs & Hl).
  assert (in_train cfg w -> is_Some (loss_D w1) -> (1 <= n_critic cfg)%Z) as Hin1.
  { intros H1 H2. now apply Hin. }
  pose proof (paths_differ timestamp) as Hne.
  assert (forall d g,
    checkpointed timestamp 1 w
      (World (cuda_is_available w1) (mps_is_available w1) (wallclock w1)
         (S (S (S (S (instant w1))))) (S (draws w1)) (steps_G w1) (steps_D w1)
         (grad_G w1) (grad_D w1) (writer_step w1) d g
         (((trace w1 ++ [EvAddImages "Generated Images"
                          (Rescaled (Gen (steps_G w1) (Randn (draws w1) 8) false)) epoch])
           ++ [EvSave netG (steps_G w1) (gw_path timestamp);
               EvSave netD (steps_D w1) (dw_path timestamp);
               EvLogInfo (LogSaved ("snapshots/gw_" +:+ timestamp +:+ ".pth")
                                   ("snapshots/dw_" +:+ timestamp +:+ ".pth"))]))
         (<[dw_path timestamp := (netD, steps_D w1)]>
            (<[gw_path timestamp := (netG, steps_G w1)]> (files w1))))) as Hck.
  { intros d g. unfold checkpointed. cbn [trace files].
    rewrite !saves_app, Hs, Hf. split.
    - cbn. rewrite app_nil_r. reflexivity.
    - right. split; [lia|]. eauto. }
  destruct (loss_D w1) as [d|] eqn:Hd; [destruct (loss_G w1) as [g|] eqn:Hg|];
    cbn [final trace files cuda_is_available mps_is_available wallclock loss_D
         steps_G steps_D].
  - do 3 (split; [done|]). split; [|split; [split; [|split; [|split]]|]].
    + unfold in_train. cbn [loss_D]. intros H1 _. apply Hin1; eauto.
    + unfold checkpointed. cbn [trace files]. rewrite !saves_app, Hs, Hf. split.
      * cbn. rewrite !app_nil_r. reflexivity.
      * right. split; [lia|]. eauto.
    + rewrite !epochs_logged_app, Hl. cbn. lia.
    + rewrite lookup_insert_ne by done. apply lookup_insert_eq.
    + apply lookup_insert_eq.
    + eauto.
  - do 3 (split; [done|]). split; [|split; [split|]].
    + unfold in_train. cbn [loss_D]. intros H1 _. apply Hin1; eauto.
    + exists 1%nat. apply Hck.
    + rewrite !epochs_logged_app, Hl. cbn. lia.
    + intros Hn Hload. destruct (Hb w1 eq_refl) as [[Hnil _]|[_ [g' Hg']]];
        [|congruence].
      destruct (loader cfg); [done|discriminate].
  - do 3 (split; [done|]). split; [|split; [split|]].
    + unfold in_train. cbn [loss_D]. intros _ [v Hv]. discriminate.
    + exists 1%nat. apply Hck.
    + rewrite !epochs_logged_app, Hl. cbn. lia.
    + intros Hn Hload. destruct (Hb w1 eq_refl) as [[Hnil _]|[[d' Hd'] _]];
        [|congruence].
      destruct (loader cfg); [done|discriminate].
Qed.

(** ** The loop over the epochs *)

Lemma for_epochs_final cfg timestamp dev fuel it (w : world) :
  let r := for_epochs fuel it (train_epoch cfg timestamp dev) w in
  cuda_is_available (reached r) = cuda_is_available w /\
  mps_is_available (reached r) = mps_is_available w /\
  wallclock (reached r) = wallclock w /\
  (in_train cfg w -> in_train cfg (reached r)) /\
  (exists k, checkpointed timestamp k w (reached r)) /\
  match r with
  | Finished (Raise _ _) => True
  | Finished (Ok _ w') | Running w' =>
      w' = w \/
      (files w' !! gw_path timestamp = Some (netG, steps_G w') /\
       files w' !! dw_path timestamp = Some (netD, steps_D w'))
  end.
Proof.
  cbv beta iota zeta. revert it w. induction fuel as [|fuel IH]; intros it w.
  - cbn. destruct (next it) as [[epoch it']|]; cbn;
      repeat split; eauto using checkpointed_refl.
  - cbn [for_epochs]. destruct (next it) as [[epoch it']|].
    2:{ cbn. repeat split; eauto using checkpointed_refl. }
    destruct (train_epoch_final cfg timestamp dev epoch w)
      as (Hc & Hm & Hclk & Hin & Hout & _). cbv beta iota zeta in *.
    destruct (train_epoch cfg timestamp dev epoch w) as [[] w1|e w1];
      cbn [final reached] in *.
    + destruct Hout as (Hck & _ & Hgw & Hdw).
      destruct (IH it' w1) as (Hc' & Hm' & Hclk' & Hin' & [k Hck'] & Hlast).
      repeat split; try congruence; eauto.
      * exists (1 + k)%nat. eapply checkpointed_trans; eauto.
      * destruct (for_epochs fuel it' _ w1) as [[[] w2|e w2]|w2]; try done;
          (destruct Hlast as [->|Hlast]; [right; done | right; exact Hlast]).
    + destruct Hout as [Hck _]. repeat split; eauto.
Qed.

Lemma for_epochs_range cfg timestamp dev fuel (i stop : Z) (w : world) :
  let r := for_epochs fuel (RangeIter i stop) (train_epoch cfg timestamp dev) w in
  (Z.to_nat (stop - i) <= fuel)%nat ->
  (exists o, r = Finished o /\
     forall w', o = Ok tt w' ->
       epochs_logged (trace w')
       = (epochs_logged (trace w) + Z.to_nat (stop - i))%nat) /\
  ((1 <= n_critic cfg)%Z -> loader cfg <> [] -> exists w', r = Finished (Ok tt w')).
Proof.
  cbv beta iota zeta. revert i w. induction fuel as [|fuel IH]; intros i w Hfuel.
  - cbn. destruct (Z.ltb_spec i stop) as [Hlt|Hge]; [lia|].
    split; [|eauto]. eexists. split; [reflexivity|].
    intros w' Hw'. inversion Hw'; subst. replace (Z.to_nat (stop - i)) with 0%nat by lia.
    lia.
  - cbn [for_epochs next]. destruct (Z.ltb_spec i stop) as [Hlt|Hge].
    2:{ split; [|eauto]. eexists. split; [reflexivity|].
        intros w' Hw'. inversion Hw'; subst.
        replace (Z.to_nat (stop - i)) with 0%nat by lia. lia. }
    destruct (train_epoch_final cfg timestamp dev i w)
      as (_ & _ & _ & _ & Hout & Htot). cbv beta iota zeta in *.
    destruct (train_epoch cfg timestamp dev i w) as [[] w1|e w1].
    + destruct Hout as (_ & Hlog & _).
      destruct (IH (i + 1)%Z w1) as [(o & Ho & Hcount) Hok]; [lia|].
      split; [|exact Hok].
      exists o. split; [exact Ho|]. intros w' Hw'. rewrite (Hcount w' Hw'), Hlog. lia.
    + split.
      * eexists. split; [reflexivity|]. discriminate.
      * intros Hn Hl. destruct (Htot Hn Hl) as [w' Hw']. discriminate.
Qed.

Lemma for_epochs_count cfg timestamp dev fuel (i : Z) (w : world) :
  let r := for_epochs fuel (CountIter i) (train_epoch cfg timestamp dev) w in
  (forall w', r <> Finished (Ok tt w')) /\
  ((1 <= n_critic cfg)%Z -> loader cfg <> [] ->
   exists w', r = Running w' /\
     epochs_logged (trace w') = (epochs_logged (trace w) + fuel)%nat).
Proof.
  cbv beta iota zeta. revert i w. induction fuel as [|fuel IH]; intros i w.
  - cbn. split; [discriminate|]. intros _ _. exists w. split; [done|lia].
  - cbn [for_epochs next].
    destruct (train_epoch_final cfg timestamp dev i w)
      as (_ & _ & _ & _ & Hout & Htot). cbv beta iota zeta in *.
    destruct (train_epoch cfg timestamp dev i w) as [[] w1|e w1].
    + destruct Hout as (_ & Hlog & _).
      destruct (IH (i + 1)%Z w1) as [Hnever Hrun]. split; [exact Hnever|].
      intros Hn Hl. destruct (Hrun Hn Hl) as (w' & Hw' & Hcount).
      exists w'. split; [exact Hw'|]. rewrite Hcount, Hlog. lia.
    + split; [discriminate|].
      intros Hn Hl. destruct (Htot Hn Hl) as [w' Hw']. discriminate.
Qed.

Lemma train_setup_run cfg (w : world) :
  train_setup cfg w =
  let timestamp := wallclock w (instant w) in
  let dev := if cuda_is_available w then cuda
             else if mps_is_available w then mps else cpu in
  Ok (timestamp, dev)
    (World (cuda_is_available w) (mps_is_available w) (wallclock w)
       (S (S (S (S (S (instant w)))))) (draws w) (steps_G w) (steps_D w)
       (grad_G w) (grad_D w) 0 None None
       (trace w ++ [EvSummaryWriter ("runs/wgan_wc_" +:+ timestamp);
                    EvTo netG dev; EvTo netD dev;
                    EvAdam netG (lr cfg) (betas cfg);
                    EvAdam netD (lr cfg) (betas cfg)])
       (files w)).
Proof.
  destruct w as [c m ? ? ? ? ? ? ? ? ? ? ? ?]. unfold train_setup, get_device. run_prims.
  destruct c; [|destruct m]; cbn -[app String.append];
    rewrite <- !app_assoc; reflexivity.
Qed.

(** ** The whole call *)

(** The store in which the loop over the epochs starts. *)
Lemma train_unfold cfg fuel (w : world) :
  exists w1 dev,
    train cfg fuel w =
      match for_epochs fuel (epochs_range (epochs cfg))
              (train_epoch cfg (wallclock w (instant w)) dev) w1 with
      | Running w2 => Running w2
      | Finished (Raise e w2) => Finished (Raise e w2)
      | Finished (Ok _ w2) => Finished (emit EvClose w2)
      end /\
    quiet w w1 /\ loss_D w1 = None.
Proof.
  unfold train. rewrite train_setup_run. cbv beta iota zeta.
  eexists _, _. split; [reflexivity|]. split; [|reflexivity].
  unfold quiet. cbn [trace files cuda_is_available mps_is_available wallclock].
  rewrite saves_app, epochs_logged_app. cbn. rewrite app_nil_r. repeat split; lia.
Qed.

Lemma emit_close_quiet (w : world) : quiet w (final (emit EvClose w)).
Proof.
  rewrite emit_run. unfold quiet.
  cbn [final trace files cuda_is_available mps_is_available wallclock].
  rewrite saves_app, epochs_logged_app. cbn. rewrite app_nil_r. repeat split; lia.
Qed.

(** Every store that [train] reaches satisfies [in_train]. *)
Lemma train_in_train cfg fuel (w : world) : in_train cfg (reached (train cfg fuel w)).
Proof.
  destruct (train_unfold cfg fuel w) as (w1 & dev & -> & _ & Hnone).
  destruct (for_epochs_final cfg (wallclock w (instant w)) dev fuel
              (epochs_range (epochs cfg)) w1) as (_ & _ & _ & Hin & _).
  cbv beta iota zeta in Hin.
  assert (in_train cfg w1) as H1.
  { intros [v Hv]. congruence. }
  specialize (Hin H1).
  destruct (for_epochs _ _ _ w1) as [[[] w2|e w2]|w2]; cbn in *; exact Hin.
Qed.

(** Called with an integer. *)
Lemma train_int cfg (w0 : world) (N : Z) (fuel : nat) :
  epochs cfg = EpochsInt N -> (Z.to_nat N <= fuel)%nat ->
  (exists o, train cfg fuel w0 = Finished o /\
     forall w', o = Ok tt w' ->
       epochs_logged (trace w') = (epochs_logged (trace w0) + Z.to_nat N)%nat) /\
  ((1 <= n_critic cfg)%Z -> loader cfg <> [] ->
   exists w', train cfg fuel w0 = Finished (Ok tt w')).
Proof.
  intros HN Hfuel.
  destruct (train_unfold cfg fuel w0) as (w1 & dev & -> & Hq & _).
  rewrite HN. cbn [epochs_range].
  destruct (for_epochs_range cfg (wallclock w0 (instant w0)) dev fuel 0 N w1)
    as [(o & Ho & Hcount) Hok]; [rewrite Z.sub_0_r; exact Hfuel|].
  rewrite Z.sub_0_r in Hcount. destruct Hq as (_ & _ & _ & _ & _ & Hlog).
  split.
  - rewrite Ho. destruct o as [[] w2|e w2].
    + eexists. split; [reflexivity|]. intros w' Hw'. rewrite emit_run in Hw'.
      inversion Hw'; subst w'. cbn [trace]. rewrite epochs_logged_app.
      rewrite (Hcount w2 eq_refl), Hlog. cbn. lia.
    + eexists. split; [reflexivity|]. discriminate.
  - intros Hn Hl. destruct (Hok Hn Hl) as [w2 ->]. rewrite emit_run. eauto.
Qed.

(** Called with "inf". *)
Lemma train_inf cfg (w0 : world) (fuel : nat) :
  epochs cfg = EpochsInf ->
  (forall w', train cfg fuel w0 <> Finished (Ok tt w')) /\
  ((1 <= n_critic cfg)%Z -> loader cfg <> [] ->
   exists w', train cfg fuel w0 = Running w' /\
     epochs_logged (trace w') = (epochs_logged (trace w0) + fuel)%nat).
Proof.
  intros Hinf.
  destruct (train_unfold cfg fuel w0) as (w1 & dev & -> & Hq & _).
  rewrite Hinf. cbn [epochs_range].
  destruct (for_epochs_count cfg (wallclock w0 (instant w0)) dev fuel 0 w1)
    as [Hnever Hrun]. destruct Hq as (_ & _ & _ & _ & _ & Hlog).
  split.
  - intros w'. destruct (for_epochs _ _ _ w1) as [[[] w2|e w2]|w2] eqn:Hr;
      try discriminate.
    exfalso. exact (Hnever w2 eq_refl).
  - intros Hn Hl. destruct (Hrun Hn Hl) as (w2 & -> & Hcount).
    exists w2. split; [reflexivity|]. rewrite Hcount, Hlog. reflexivity.
Qed.

(** A call that carries out its epochs and returns. *)
Lemma train_int_returns cfg (w0 : world) (N : Z) (fuel : nat) :
  epochs cfg = EpochsInt N -> (Z.to_nat N <= fuel)%nat ->
  (1 <= n_critic cfg)%Z -> loader cfg <> [] ->
  exists w', train cfg fuel w0 = Finished (Ok tt w') /\
    epochs_logged (trace w') = (epochs_logged (trace w0) + Z.to_nat N)%nat.
Proof.
  intros HN Hfuel Hn Hl.
  destruct (train_int cfg w0 N fuel HN Hfuel) as [(o & Ho & Hcount) Hok].
  destruct (Hok Hn Hl) as [w' Hw']. exists w'. split; [exact Hw'|].
  apply Hcount. rewrite Ho in Hw'. now inversion Hw'.
Qed.

(** C8: in one call of [train] the only calls of [torch.save] are, epoch
    after epoch, the same two: G's parameters to ./snapshots/gw_<timestamp>.pth
    and D's to ./snapshots/dw_<timestamp>.pth, where <timestamp> is what the
    clock showed when the call started.  Whatever the number of epochs, the
    files afterwards are those from before with at most these two paths
    written, each holding one state: later epochs overwrite earlier ones,
    and after a call that ends normally and carried out an epoch they hold
    the final parameters. *)
Theorem train_checkpoints cfg fuel (w0 : world) :
  let timestamp := wallclock w0 (instant w0) in
  let r := train cfg fuel w0 in
  (exists k, checkpointed timestamp k w0 (reached r)) /\
  (forall w',
     r = Finished (Ok tt w') ->
     epochs_logged (trace w') <> epochs_logged (trace w0) ->
     files w' !! gw_path timestamp = Some (netG, steps_G w') /\
     files w' !! dw_path timestamp = Some (netD, steps_D w')).
Proof.
  cbv beta iota zeta.
  destruct (train_unfold cfg fuel w0) as (w1 & dev & -> & Hq & _).
  destruct (for_epochs_final cfg (wallclock w0 (instant w0)) dev fuel
              (epochs_range (epochs cfg)) w1) as (_ & _ & _ & _ & [k Hck] & Hlast).
  cbv beta iota zeta in *.
  assert (checkpointed (wallclock w0 (instant w0)) 0 w0 w1) as Hck0.
  { eapply quiet_checkpointed; [apply checkpointed_refl | exact Hq]. }
  destruct (for_epochs _ _ _ w1) as [[[] w2|e w2]|w2]; cbn [reached final] in *.
  - split.
    + exists (0 + k)%nat. eapply quiet_checkpointed; [|apply emit_close_quiet].
      eapply checkpointed_trans; eauto.
    + intros w' Hw' Hlog. rewrite emit_run in Hw'. inversion Hw'; subst w'; clear Hw'.
      cbn [trace files steps_G steps_D] in *.
      destruct Hlast as [->|Hlast]; [|exact Hlast].
      exfalso. apply Hlog. rewrite epochs_logged_app. cbn.
      destruct Hq as (_ & _ & _ & _ & _ & ->). lia.
  - split; [|discriminate].
    exists (0 + k)%nat. eapply checkpointed_trans; eauto.
  - split; [|discriminate].
    exists (0 + k)%nat. eapply checkpointed_trans; eauto.
Qed.

(** C9 (as amended): called with an integer [N], the loop over the epochs
    ends after [max N 0] iterations, and when no epoch raised exactly
    [max N 0] epochs were carried out; called with "inf", the loop is never
    left normally.  When every batch can be carried out ([n_critic >= 1], a
    loader that yields a batch), the first call ends normally and the
    second is still running after any number of epochs. *)
Theorem train_epochs_count cfg (w0 : world) :
  (forall N fuel,
     epochs cfg = EpochsInt N -> (Z.to_nat N <= fuel)%nat ->
     (exists o, train cfg fuel w0 = Finished o /\
        forall w', o = Ok tt w' ->
          epochs_logged (trace w') = (epochs_logged (trace w0) + Z.to_nat N)%nat) /\
     ((1 <= n_critic cfg)%Z -> loader cfg <> [] ->
      exists w', train cfg fuel w0 = Finished (Ok tt w'))) /\
  (forall fuel,
     epochs cfg = EpochsInf ->
     (forall w', train cfg fuel w0 <> Finished (Ok tt w')) /\
     ((1 <= n_critic cfg)%Z -> loader cfg <> [] ->
      exists w', train cfg fuel w0 = Running w' /\
        epochs_logged (trace w') = (epochs_logged (trace w0) + fuel)%nat)).
Proof.
  split.
  - intros N fuel. apply train_int.
  - intros fuel. apply train_inf.
Qed.

(** ** The statements on concrete calls *)

(** A host without CUDA and without MPS. *)
Lemma get_device_priority_witness :
  get_device example_world = Ok cpu example_world /\
  exists d, get_device example_world = Ok d example_world /\
            get_device (fresh_world false false (fun _ => "20260101000000"))
            = Ok d (fresh_world false false (fun _ => "20260101000000")).
Proof.
  destruct (get_device_priority example_world) as (_ & _ & Hcpu & Hpure).
  split.
  - apply Hcpu; reflexivity.
  - apply Hpure; reflexivity.
Defined.

Lemma example_in_train (e : epochs_arg) : in_train (example_config e) example_world.
Proof. intros [v Hv]. discriminate Hv. Qed.

Lemma example_batch_runs :
  exists w', train_batch (example_config (EpochsInt 1)) cpu 0 (0%nat, 4%nat) example_world
             = Ok tt w'.
Proof.
  apply (train_batch_final (example_config (EpochsInt 1)) cpu 0 (0%nat, 4%nat)
           example_world). cbn. lia.
Qed.

(** The first batch of a call with one critic update per batch. *)
Lemma train_batch_schedule_witness :
  exists w' d_item,
    train_batch (example_config (EpochsInt 1)) cpu 0 (0%nat, 4%nat) example_world
    = Ok tt w' /\
    trace w' =
      [EvToDevice (RealBatch 0 0) cpu]
      ++ critic_steps (example_config (EpochsInt 1)) (RealBatch 0 0) 4 0 0 0 1
      ++ generator_step_events (generator_loss_at 4 0 1 2)
      ++ [EvAddScalar "Loss/Critic" d_item 0;
          EvAddScalar "Loss/Generator" (generator_loss_at 4 0 1 2) 0] /\
    steps_D w' = 1%nat /\ steps_G w' = 1%nat.
Proof.
  destruct example_batch_runs as [w' Hrun].
  destruct (train_batch_schedule _ _ _ _ _ _ _ (example_in_train _) Hrun)
    as (n & d & Hn & Htr & HsD & HsG & _).
  assert (n = 1%nat) as -> by (cbn in Hn; lia).
  exists w', d. split; [exact Hrun|]. split; [exact Htr|]. split; [exact HsD | exact HsG].
Defined.

Lemma example_config_runs (e : epochs_arg) :
  (1 <= n_critic (example_config e))%Z /\ loader (example_config e) <> [].
Proof. split; [cbn; lia | discriminate]. Qed.

(** Two epochs: both paths hold the final parameters. *)
Lemma train_checkpoints_witness :
  exists w',
    train (example_config (EpochsInt 2)) 2 example_world = Finished (Ok tt w') /\
    (exists k, checkpointed "20250101000000" k example_world w') /\
    files w' !! gw_path "20250101000000" = Some (netG, steps_G w') /\
    files w' !! dw_path "20250101000000" = Some (netD, steps_D w').
Proof.
  destruct (example_config_runs (EpochsInt 2)) as [Hn Hl].
  destruct (train_int_returns (example_config (EpochsInt 2)) example_world 2 2
              eq_refl (le_n _) Hn Hl) as (w' & Hrun & Hlog).
  destruct (train_checkpoints (example_config (EpochsInt 2)) 2 example_world)
    as [Hck Hfiles].
  exists w'. split; [exact Hrun|]. split.
  - rewrite Hrun in Hck. exact Hck.
  - apply Hfiles; [exact Hrun|]. rewrite Hlog. cbn. lia.
Defined.

(** Two epochs asked for and carried out; with "inf", still running after
    three. *)
Lemma train_epochs_count_witness :
  (exists w',
     train (example_config (EpochsInt 2)) 2 example_world = Finished (Ok tt w') /\
     epochs_logged (trace w') = 2%nat) /\
  (exists w',
     train (example_config EpochsInf) 3 example_world = Running w' /\
     epochs_logged (trace w') = 3%nat).
Proof.
  split.
  - destruct (train_epochs_count (example_config (EpochsInt 2)) example_world)
      as [Hint _].
    destruct (Hint 2%Z 2%nat eq_refl (le_n _)) as [(o & Ho & Hcount) Hok].
    destruct (example_config_runs (EpochsInt 2)) as [Hn Hl].
    destruct (Hok Hn Hl) as [w' Hw']. exists w'. split; [exact Hw'|].
    rewrite Ho in Hw'. inversion Hw'; subst o. exact (Hcount w' eq_refl).
  - destruct (train_epochs_count (example_config EpochsInf) example_world)
      as [_ Hinf].
    destruct (Hinf 3%nat eq_refl) as [_ Hrun].
    destruct (example_config_runs EpochsInf) as [Hn Hl].
    exact (Hrun Hn Hl).
Defined.

(** C9 as stated fails on a negative integer: the call returns normally
    and has carried out no epoch, not "-1 epochs". *)
Lemma train_negative_epochs :
  exists w',
    train (example_config (EpochsInt (-1))) 5 example_world = Finished (Ok tt w') /\
    epochs_logged (trace w') = 0%nat /\
    Z.of_nat (epochs_logged (trace w')) <> (-1)%Z.
Proof.
  destruct (example_config_runs (EpochsInt (-1))) as [Hn Hl].
  destruct (train_int_returns (example_config (EpochsInt (-1))) example_world (-1) 5
              eq_refl) as (w' & Hrun & Hlog); [cbn; lia | exact Hn | exact Hl |].
  exists w'. split; [exact Hrun|]. split; [exact Hlog|]. rewrite Hlog. cbn. lia.
Qed.

(** ** The losses on a concrete critic *)

Example generator_loss_example :
  generator_loss sum_critic [[1; 2]; [3; 5]] = Num (- (11 / 2)).
Proof.
  unfold generator_loss, mean, sum_critic. cbn. f_equal. lra.
Qed.

Example gradient_penalty_example :
  gradient_penalty sum_critic [[2]] [[0]] cpu 10 halves = Ok (Num 0) (advance 1 halves).
Proof.
  rewrite gradient_penalty_unfold. cbv beta iota zeta.
  destruct (decide _) as [_|Hn]; [|destruct Hn; repeat constructor].
  cbn [sum_critic input_gradient interpolate interpolate_with uniform length seq
       map zip_with].
  change (map penalty_term [[1]]) with [penalty_term [1]].
  rewrite (penalty_term_unit [1]).
  - unfold mean, smul. cbn. do 2 f_equal. lra.
  - unfold norm2. cbn. replace (1 * 1 + 0) with 1 by ring. apply sqrt_1.
Qed.

Example critic_loss_example :
  critic_loss sum_critic [[2]] [[0]] cpu 10 halves = Ok (Num (- 2)) (advance 1 halves).
Proof.
  unfold critic_loss. cbv beta iota zeta. unfold mbind, M_bind.
  rewrite gradient_penalty_example. unfold mret, M_ret, mean, sum_critic.
  cbn. do 2 f_equal. lra.
Qed.

(** * Further properties *)

(** ** The gradient penalty and the losses *)


Lemma Rsum_nonneg_zero (l : list R) :
  Forall (fun x => 0 <= x) l -> Rsum l = 0 -> Forall (fun x => x = 0) l.
Proof.
  induction 1 as [|x l Hx Hl IH]; intros Hsum; [constructor|].
  change (x + Rsum l = 0) in Hsum. pose proof (Rsum_nonneg l Hl) as Hl0.
  constructor; [lra|]. apply IH. lra.
Qed.

Lemma mean_cons_zero_inv (x : R) (l : list R) :
  Forall (fun y => 0 <= y) (x :: l) -> mean (x :: l) = Num 0 ->
  Forall (fun y => y = 0) (x :: l).
Proof.
  intros Hl Hm. apply Rsum_nonneg_zero; [exact Hl|].
  unfold mean in Hm. injection Hm as H0.
  pose proof (INR_length_pos x l) as Hn.
  apply Rmult_integral in H0 as [H0|H0]; [exact H0|].
  exfalso. revert H0. apply Rinv_neq_0_compat. apply Rgt_not_eq. exact Hn.
Qed.

Lemma penalty_term_unit_inv (row : list R) : penalty_term row = 0 -> norm2 row = 1.
Proof.
  unfold penalty_term, clamp_min. intros H.
  assert (Rmax (norm2 row) (1 / 1000000) = 1) as Hmax by nra.
  unfold Rmax in Hmax. destruct (Rle_dec _ _); lra.
Qed.

Lemma penalty_terms_unit_inv (rows : list (list R)) :
  Forall (fun y => y = 0) (map penalty_term rows) ->
  Forall (fun r => norm2 r = 1) rows.
Proof.
  induction rows as [|row rows IH]; intros H; [constructor|].
  cbn in H. inversion H; subst. constructor; [now apply penalty_term_unit_inv|auto].
Qed.

(** X1: in exact arithmetic and for a factor other than 0, the gradient
    penalty is exactly 0 if and only if every row of the gradient has
    Euclidean norm exactly 1: no other gradient is left unpenalised. *)
Theorem gradient_penalty_zero_iff D real_samples fake_samples dev factor (g : rng)
    (row : list R) (rows : list (list R)) :
  factor <> 0 ->
  same_shape real_samples fake_samples ->
  input_gradient D
    (interpolate (uniform (length real_samples) g) real_samples fake_samples)
    = Some (row :: rows) ->
  gradient_penalty D real_samples fake_samples dev factor g
    = Ok (Num 0) (advance (length real_samples) g)
  <-> Forall (fun r => norm2 r = 1) (row :: rows).
Proof.
  intros Hfactor Hshape Hgrad.
  rewrite gradient_penalty_unfold. cbv beta iota zeta.
  destruct (decide _) as [_|Hn]; [|contradiction].
  rewrite Hgrad.
  change (map penalty_term (row :: rows))
    with (penalty_term row :: map penalty_term rows).
  split.
  - intros Hgp.
    destruct (mean_cons_nonneg (penalty_term row) (map penalty_term rows)
                (penalty_terms_nonneg (row :: rows))) as (m & Hm & Hm0).
    rewrite Hm in Hgp. cbn in Hgp. inversion Hgp as [Hzero].
    assert (m = 0) as -> by nra.
    apply penalty_terms_unit_inv.
    apply mean_cons_zero_inv; [exact (penalty_terms_nonneg (row :: rows))|exact Hm].
  - intros Hnorm. rewrite mean_cons_zero.
    + unfold smul. now rewrite Rmult_0_r.
    + exact (penalty_terms_unit (row :: rows) Hnorm).
Qed.

Lemma Rsum_const (c : R) (l : list R) :
  Forall (fun y => y = c) l -> Rsum l = INR (length l) * c.
Proof.
  induction 1 as [|x l Hx _ IH].
  - cbn. lra.
  - change (x + Rsum l = INR (S (length l)) * c). rewrite S_INR, IH, Hx. lra.
Qed.

Lemma mean_cons_const (c x : R) (l : list R) :
  Forall (fun y => y = c) (x :: l) -> mean (x :: l) = Num c.
Proof.
  intros Hl. unfold mean. rewrite (Rsum_const c _ Hl). f_equal.
  pose proof (INR_length_pos x l) as Hn. field. lra.
Qed.

Lemma penalty_term_clamped (row : list R) :
  norm2 row <= 1 / 1000000 -> penalty_term row = (1 / 1000000 - 1) ^ 2.
Proof.
  intros H. unfold penalty_term, clamp_min. rewrite Rmax_right by exact H. reflexivity.
Qed.

(** X2: the clamp at 1e-6 decides the penalty of a vanishing gradient:
    when autograd returns a gradient every row of which has norm at most
    1e-6, the penalty is, in exact arithmetic, [factor * (1 - 1e-6)^2],
    whatever the gradient is. *)
Theorem gradient_penalty_vanishing_gradient D real_samples fake_samples dev factor
    (g : rng) (row : list R) (rows : list (list R)) :
  same_shape real_samples fake_samples ->
  input_gradient D
    (interpolate (uniform (length real_samples) g) real_samples fake_samples)
    = Some (row :: rows) ->
  Forall (fun r => norm2 r <= 1 / 1000000) (row :: rows) ->
  gradient_penalty D real_samples fake_samples dev factor g
  = Ok (Num (factor * (1 - 1 / 1000000) ^ 2)) (advance (length real_samples) g).
Proof.
  intros Hshape Hgrad Hsmall.
  rewrite gradient_penalty_unfold. cbv beta iota zeta.
  destruct (decide _) as [_|Hn]; [|contradiction].
  rewrite Hgrad.
  change (map penalty_term (row :: rows))
    with (penalty_term row :: map penalty_term rows).
  rewrite (mean_cons_const ((1 / 1000000 - 1) ^ 2)).
  - unfold smul. do 2 f_equal. ring.
  - change (Forall (fun y => y = (1 / 1000000 - 1) ^ 2)
              (map penalty_term (row :: rows))).
    clear Hgrad. induction Hsmall as [|r rs Hr _ IH]; cbn; constructor;
      [now apply penalty_term_clamped | exact IH].
Qed.

Lemma zero_row_norm (n : nat) : norm2 (replicate n 0) = 0.
Proof.
  unfold norm2. replace (Rsum (map (fun x => x * x) (replicate n 0))) with 0.
  - apply sqrt_0.
  - induction n as [|n IH]; cbn; [reflexivity|].
    change (0 = 0 * 0 + Rsum (map (fun x => x * x) (replicate n 0))).
    rewrite <- IH. ring.
Qed.


Lemma gradient_penalty_vanishing_gradient_witness :
  gradient_penalty flat_critic [[2; 1]] [[0; 3]] cpu 10 halves
  = Ok (Num (10 * (1 - 1 / 1000000) ^ 2)) (advance 1 halves).
Proof.
  apply (gradient_penalty_vanishing_gradient flat_critic [[2; 1]] [[0; 3]] cpu 10 halves
           [0; 0] []).
  - repeat constructor.
  - reflexivity.
  - constructor; [|constructor]. change [0; 0] with (replicate 2 0).
    rewrite (zero_row_norm 2). lra.
Defined.

Lemma gradient_penalty_zero_iff_witness :
  gradient_penalty sum_critic [[2]] [[0]] cpu 10 halves = Ok (Num 0) (advance 1 halves)
  <-> Forall (fun r => norm2 r = 1) [[1]].
Proof.
  apply (gradient_penalty_zero_iff sum_critic [[2]] [[0]] cpu 10 halves [1] []).
  - lra.
  - repeat constructor.
  - reflexivity.
Defined.

Lemma Rsum_shift (c : R) (l : list R) :
  Rsum (map (Rplus c) l) = INR (length l) * c + Rsum l.
Proof.
  induction l as [|x l IH].
  - cbn. lra.
  - change ((c + x) + Rsum (map (Rplus c) l)
            = INR (S (length l)) * c + (x + Rsum l)).
    rewrite S_INR, IH. lra.
Qed.

Lemma mean_shift (c : R) (l : list R) :
  mean (map (Rplus c) l) = sadd (Num c) (mean l).
Proof.
  destruct l as [|x l]; [reflexivity|].
  change (map (Rplus c) (x :: l)) with ((c + x) :: map (Rplus c) l).
  unfold mean, sadd. f_equal.
  change (Rsum ((c + x) :: map (Rplus c) l)) with (Rsum (map (Rplus c) (x :: l))).
  rewrite Rsum_shift. change (length ((c + x) :: map (Rplus c) l))
    with (S (length (map (Rplus c) l))).
  rewrite length_map. change (S (length l)) with (length (x :: l)).
  pose proof (INR_length_pos x l) as Hn. field. lra.
Qed.

(** X4: in exact arithmetic, adding a constant [c] to every score of the
    critic leaves the critic loss as it is (the two means cancel and the
    gradient penalty does not see the scores) and lowers the generator loss
    by [c]. *)
Theorem critic_loss_shift_invariant (c : R) D real_samples fake_samples dev factor
    (g : rng) :
  critic_loss (shift_scores c D) real_samples fake_samples dev factor g
  = critic_loss D real_samples fake_samples dev factor g /\
  generator_loss (shift_scores c D) fake_samples
  = ssub (generator_loss D fake_samples) (Num c).
Proof.
  split.
  - unfold critic_loss. cbv beta iota zeta. unfold mbind, M_bind.
    assert (gradient_penalty (shift_scores c D) real_samples fake_samples dev factor g
            = gradient_penalty D real_samples fake_samples dev factor g) as ->.
    { rewrite !gradient_penalty_unfold. reflexivity. }
    destruct (gradient_penalty D real_samples fake_samples dev factor g)
      as [gp g1|e g1]; [|reflexivity].
    unfold mret, M_ret. f_equal. f_equal.
    cbn [shift_scores forward]. rewrite !mean_shift.
    destruct (mean (forward D fake_samples)) as [a|],
             (mean (forward D real_samples)) as [b|]; cbn; try reflexivity.
    f_equal. ring.
  - unfold generator_loss. cbn [shift_scores forward]. rewrite mean_shift.
    destruct (mean (forward D fake_samples)) as [a|]; cbn; [|reflexivity].
    f_equal. ring.
Qed.

(** X5: in exact arithmetic, the rescaling of the logged images inverts
    the normalisation of the dataset; the normalisation maps pixels in [0,1]
    into [-1,1] and the rescaling maps components in [-1,1] into [0,1]. *)
Theorem rescale_inverts_normalize (x : batch) :
  rescale (normalize x) = x /\
  (Forall (Forall (fun v => 0 <= v <= 1)) x ->
   Forall (Forall (fun v => -1 <= v <= 1)) (normalize x)) /\
  (Forall (Forall (fun v => -1 <= v <= 1)) x ->
   Forall (Forall (fun v => 0 <= v <= 1)) (rescale x)).
Proof.
  unfold rescale, normalize. split; [|split].
  - rewrite map_map. rewrite <- (map_id x) at 2. apply map_ext. intros s.
    rewrite map_map. rewrite <- (map_id s) at 2. apply map_ext. intros v. field.
  - intros H. induction H as [|s x Hs _ IH]; cbn; constructor; [|exact IH].
    induction Hs as [|v s Hv _ IHs]; cbn; constructor; [|exact IHs]. lra.
  - intros H. induction H as [|s x Hs _ IH]; cbn; constructor; [|exact IH].
    induction Hs as [|v s Hv _ IHs]; cbn; constructor; [|exact IHs]. lra.
Qed.

Lemma rescale_inverts_normalize_witness :
  Forall (Forall (fun v => 0 <= v <= 1)) [[0; 1 / 4]; [1 / 2; 1]] /\
  Forall (Forall (fun v => -1 <= v <= 1)) (normalize [[0; 1 / 4]; [1 / 2; 1]]) /\
  Forall (Forall (fun v => 0 <= v <= 1)) (rescale (normalize [[0; 1 / 4]; [1 / 2; 1]])).
Proof.
  assert (Forall (Forall (fun v => 0 <= v <= 1)) [[0; 1 / 4]; [1 / 2; 1]]) as H.
  { repeat constructor; lra. }
  split; [exact H|].
  destruct (rescale_inverts_normalize [[0; 1 / 4]; [1 / 2; 1]]) as (_ & Hn & _).
  destruct (rescale_inverts_normalize (normalize [[0; 1 / 4]; [1 / 2; 1]]))
    as (_ & _ & Hr).
  split; [exact (Hn H) | exact (Hr (Hn H))].
Defined.

(** X6: on a real batch without samples neither the gradient penalty nor
    the critic loss returns: the call raises RuntimeError (shapes that do
    not match, no gradient, or the ambiguous [view] of a gradient without
    rows), the gradient being of the shape of its input. *)
Theorem gradient_penalty_empty_batch D fake_samples dev factor (g : rng) :
  (forall x gradients, input_gradient D x = Some gradients ->
                       length gradients = length x) ->
  gradient_penalty D [] fake_samples dev factor g = Raise RuntimeError g /\
  critic_loss D [] fake_samples dev factor g = Raise RuntimeError g.
Proof.
  intros Hshape.
  assert (gradient_penalty D [] fake_samples dev factor g = Raise RuntimeError g) as Hgp.
  { rewrite gradient_penalty_unfold. cbv beta iota zeta.
    change (advance (length (@nil (list R))) g) with g.
    destruct (decide _) as [_|_]; [|reflexivity].
    change (interpolate (uniform (length (@nil (list R))) g) [] fake_samples)
      with (@nil (list R)).
    destruct (input_gradient D []) as [[|row rows]|] eqn:Hg; try reflexivity.
    apply Hshape in Hg. discriminate Hg. }
  split; [exact Hgp|].
  unfold critic_loss. cbv beta iota zeta. unfold mbind, M_bind. now rewrite Hgp.
Qed.

Lemma sum_critic_gradient_shape (x gradients : batch) :
  input_gradient sum_critic x = Some gradients -> length gradients = length x.
Proof. cbn. intros H. inversion H. apply length_map. Qed.

Lemma gradient_penalty_empty_batch_witness :
  gradient_penalty sum_critic [] [] cpu 10 halves = Raise RuntimeError halves /\
  critic_loss sum_critic [] [] cpu 10 halves = Raise RuntimeError halves.
Proof.
  apply (gradient_penalty_empty_batch sum_critic [] cpu 10 halves).
  exact sum_critic_gradient_shape.
Defined.

(** X7: the ends of the interpolation: with every coefficient 0 the
    interpolated batch is the fake batch, with every coefficient 1 it is the
    real batch. *)
Theorem interpolate_endpoints (alpha : list R) (real_samples fake_samples : batch) :
  length alpha = length real_samples ->
  same_shape real_samples fake_samples ->
  (Forall (fun a => a = 0) alpha ->
   interpolate alpha real_samples fake_samples = fake_samples) /\
  (Forall (fun a => a = 1) alpha ->
   interpolate alpha real_samples fake_samples = real_samples).
Proof.
  intros Hlen Hshape.
  assert (forall a (rs fs : list R), length rs = length fs ->
            (a = 0 -> zip_with Rplus (map (Rmult a) rs) (map (Rmult (1 - a)) fs) = fs) /\
            (a = 1 -> zip_with Rplus (map (Rmult a) rs) (map (Rmult (1 - a)) fs) = rs))
    as Hrow.
  { intros a rs. induction rs as [|r rs IH]; intros [|f fs] Hl; try discriminate.
    - done.
    - injection Hl as Hl. destruct (IH fs Hl) as [IH0 IH1]. split; intros ->; cbn.
      + rewrite IH0 by reflexivity. f_equal. ring.
      + rewrite IH1 by reflexivity. f_equal. ring. }
  unfold interpolate, interpolate_with. revert alpha Hlen.
  induction Hshape as [|rs fs real' fake' Hrf _ IH]; intros [|a alpha] Hlen;
    try discriminate.
  - done.
  - injection Hlen as Hlen. destruct (IH alpha Hlen) as [IH0 IH1].
    destruct (Hrow a rs fs Hrf) as [Hr0 Hr1].
    split; intros Ha; inversion Ha; subst; cbn.
    + rewrite Hr0 by reflexivity. f_equal. now apply IH0.
    + rewrite Hr1 by reflexivity. f_equal. now apply IH1.
Qed.

Lemma interpolate_endpoints_witness :
  interpolate [0] [[2; 1]] [[0; 3]] = [[0; 3]] /\
  interpolate [1] [[2; 1]] [[0; 3]] = [[2; 1]].
Proof.
  destruct (interpolate_endpoints [0] [[2; 1]] [[0; 3]]) as [H0 _];
    [reflexivity | repeat constructor |].
  destruct (interpolate_endpoints [1] [[2; 1]] [[0; 3]]) as [_ H1];
    [reflexivity | repeat constructor |].
  split; [apply H0 | apply H1]; repeat constructor.
Defined.

(** ** The calls a run shows *)

Lemma notes_app (t1 t2 : list event) : notes (t1 ++ t2) = notes t1 ++ notes t2.
Proof. unfold notes. apply omap_app. Qed.

Lemma critic_steps_notes cfg real_img B sG sD k n :
  notes (critic_steps cfg real_img B sG sD k n) = [].
Proof.
  revert sD k. induction n as [|n IH]; intros sD k; [done|].
  cbn [critic_steps]. rewrite notes_app, IH. done.
Qed.

Lemma advanced_refl cfg (w : world) : advanced cfg 0 0 [] w w.
Proof. unfold advanced. rewrite app_nil_r. repeat split; lia. Qed.

Lemma advanced_trans cfg b1 e1 s1 b2 e2 s2 (w1 w2 w3 : world) :
  advanced cfg b1 e1 s1 w1 w2 -> advanced cfg b2 e2 s2 w2 w3 ->
  advanced cfg (b1 + b2) (e1 + e2) (s1 ++ s2) w1 w3.
Proof.
  unfold advanced. intros (Hn1 & Hw1 & HG1 & HD1 & Hd1) (Hn2 & Hw2 & HG2 & HD2 & Hd2).
  rewrite Hn2, Hn1, Hw2, Hw1, HG2, HG1, HD2, HD1, Hd2, Hd1, app_assoc.
  repeat split; lia.
Qed.

(** A batch that is carried out. *)
Lemma train_batch_advanced cfg dev epoch (b : nat * nat) (w w' : world) :
  train_batch cfg dev epoch b w = Ok tt w' ->
  advanced cfg 1 0 (batch_notes dev (writer_step w)) w w'.
Proof.
  intros Hrun. unfold train_batch in Hrun.
  rewrite bind_run, emit_run in Hrun. cbv beta iota in Hrun. rewrite bind_run in Hrun.
  match type of Hrun with context [for_each _ _ ?w0] =>
    destruct (critic_loop_run cfg dev (RealBatch epoch b.1) b.2 (range (n_critic cfg)) w0)
      as (w1 & Hloop & Htr & Hdr & HsD & HsG & HgG & Hws & HlG & Hf & Hc & Hm
          & Hclk & Hnil & Hcons)
  end.
  rewrite Hloop in Hrun. cbv beta iota in Hrun.
  rewrite bind_run, generator_update_run in Hrun. cbv beta iota zeta in Hrun.
  rewrite log_losses_run in Hrun.
  cbn [trace draws steps_D steps_G grad_G writer_step loss_G files
       cuda_is_available mps_is_available wallclock loss_D instant grad_D] in *.
  destruct (loss_D w1) as [d|] eqn:Hd; [|discriminate].
  inversion Hrun; subst w'; clear Hrun.
  rewrite length_range in *.
  unfold advanced. cbn [trace draws steps_D steps_G writer_step].
  rewrite Htr, !notes_app, critic_steps_notes, Hws, HsG, HsD, Hdr.
  cbn. rewrite !app_nil_r, <- !app_assoc. cbn.
  repeat split; lia.
Qed.

Lemma batches_notes_S dev (s : Z) (n : nat) :
  batches_notes dev s (S n) = batch_notes dev s ++ batches_notes dev (s + 1) n.
Proof.
  unfold batches_notes. cbn [seq map concat]. rewrite <- seq_shift, map_map.
  replace (s + Z.of_nat 0)%Z with s by lia. do 2 f_equal.
  apply map_ext. intros k. f_equal. lia.
Qed.

Lemma epochs_notes_S timestamp dev (L : nat) (s e : Z) (c : nat) :
  epochs_notes timestamp dev L s e (S c)
  = epoch_notes timestamp dev L s e
    ++ epochs_notes timestamp dev L (s + Z.of_nat L) (e + 1) c.
Proof.
  unfold epochs_notes. cbn [seq map concat]. rewrite <- seq_shift, map_map.
  replace (s + Z.of_nat (0 * L))%Z with s by lia.
  replace (e + Z.of_nat 0)%Z with e by lia. do 2 f_equal.
  apply map_ext. intros j. f_equal; lia.
Qed.

(** The batches of an epoch, all carried out. *)
Lemma train_batches_advanced cfg dev epoch (l : list (nat * nat)) (w w' : world) :
  for_each l (train_batch cfg dev epoch) w = Ok tt w' ->
  advanced cfg (length l) 0 (batches_notes dev (writer_step w) (length l)) w w'.
Proof.
  revert w. induction l as [|b l IH]; intros w Hrun.
  - cbn in Hrun. inversion Hrun; subst. apply advanced_refl.
  - cbn [for_each] in Hrun. rewrite bind_run in Hrun.
    destruct (train_batch cfg dev epoch b w) as [[] w1|e w1] eqn:Hb; [|discriminate].
    pose proof (train_batch_advanced _ _ _ _ _ _ Hb) as H1.
    pose proof (IH w1 Hrun) as H2.
    assert (writer_step w1 = (writer_step w + 1)%Z) as Hws.
    { destruct H1 as (_ & -> & _). lia. }
    rewrite Hws in H2. cbn [length]. rewrite batches_notes_S.
    exact (advanced_trans cfg 1 0 _ (length l) 0 _ w w1 w' H1 H2).
Qed.

Lemma length_enumerate {A} (l : list A) : length (enumerate l) = length l.
Proof. unfold enumerate. apply length_imap. Qed.

(** An epoch that is carried out. *)
Lemma train_epoch_advanced cfg timestamp dev epoch (w w' : world) :
  train_epoch cfg timestamp dev epoch w = Ok tt w' ->
  advanced cfg (length (loader cfg)) 1
    (epoch_notes timestamp dev (length (loader cfg)) (writer_step w) epoch) w w'.
Proof.
  intros Hrun. unfold train_epoch in Hrun. rewrite bind_run in Hrun.
  destruct (for_each _ _ w) as [[] w1|e w1] eqn:Hb; [|discriminate].
  apply train_batches_advanced in Hb. rewrite length_enumerate in Hb.
  cbv beta iota in Hrun.
  rewrite bind_run, log_sample_images_run in Hrun. cbv beta iota in Hrun.
  rewrite bind_run, save_models_run in Hrun. cbv beta iota in Hrun.
  rewrite log_epoch_run in Hrun.
  cbn [trace draws steps_D steps_G grad_G writer_step loss_G files
       cuda_is_available mps_is_available wallclock loss_D instant grad_D] in Hrun.
  destruct (loss_D w1) as [d|]; [|discriminate].
  destruct (loss_G w1) as [g|]; [|discriminate].
  inversion Hrun; subst w'; clear Hrun.
  destruct Hb as (Hn & Hws & HG & HD & Hd).
  unfold advanced, epoch_notes. cbn [trace draws steps_D steps_G writer_step].
  rewrite !notes_app, Hn, Hws, HG, HD, Hd. cbn. rewrite <- !app_assoc. cbn.
  repeat split; lia.
Qed.


Lemma next_index (it it' : iterator) (epoch : Z) :
  next it = Some (epoch, it') -> epoch = iter_index it /\ iter_index it' = (epoch + 1)%Z.
Proof.
  destruct it as [i stop|i]; cbn.
  - destruct (i <? stop)%Z; [|discriminate]. intros H. inversion H. done.
  - intros H. inversion H. done.
Qed.

(** The loop over the epochs, cut off while it is iterating. *)
Lemma for_epochs_running cfg timestamp dev fuel it (w w' : world) :
  for_epochs fuel it (train_epoch cfg timestamp dev) w = Running w' ->
  advanced cfg (fuel * length (loader cfg)) fuel
    (epochs_notes timestamp dev (length (loader cfg)) (writer_step w)
       (iter_index it) fuel) w w'.
Proof.
  revert it w. induction fuel as [|fuel IH]; intros it w Hrun.
  - cbn in Hrun. destruct (next it) as [[epoch it']|]; [|discriminate].
    inversion Hrun; subst. apply advanced_refl.
  - cbn [for_epochs] in Hrun.
    destruct (next it) as [[epoch it']|] eqn:Hnext; [|discriminate].
    apply next_index in Hnext as [-> Hit'].
    destruct (train_epoch cfg timestamp dev (iter_index it) w) as [[] w1|e w1] eqn:He;
      [|discriminate].
    pose proof (train_epoch_advanced _ _ _ _ _ _ He) as H1.
    pose proof (IH it' w1 Hrun) as H2.
    assert (writer_step w1 = (writer_step w + Z.of_nat (length (loader cfg)))%Z) as Hws.
    { destruct H1 as (_ & -> & _). reflexivity. }
    rewrite Hws, Hit' in H2. rewrite epochs_notes_S.
    exact (advanced_trans cfg _ 1 _ _ fuel _ w w1 w' H1 H2).
Qed.

(** The loop over [range(stop)], left normally. *)
Lemma for_epochs_finished cfg timestamp dev fuel (i stop : Z) (w w' : world) :
  for_epochs fuel (RangeIter i stop) (train_epoch cfg timestamp dev) w
  = Finished (Ok tt w') ->
  advanced cfg (Z.to_nat (stop - i) * length (loader cfg)) (Z.to_nat (stop - i))
    (epochs_notes timestamp dev (length (loader cfg)) (writer_step w) i
       (Z.to_nat (stop - i))) w w' /\
  (w' = w \/ is_Some (loss_D w')).
Proof.
  revert i w. induction fuel as [|fuel IH]; intros i w Hrun.
  - cbn in Hrun. destruct (Z.ltb_spec i stop) as [Hlt|Hge]; [discriminate|].
    inversion Hrun; subst. replace (Z.to_nat (stop - i)) with 0%nat by lia.
    split; [apply advanced_refl | auto].
  - cbn [for_epochs next] in Hrun. destruct (Z.ltb_spec i stop) as [Hlt|Hge].
    2:{ inversion Hrun; subst. replace (Z.to_nat (stop - i)) with 0%nat by lia.
        split; [apply advanced_refl | auto]. }
    destruct (train_epoch cfg timestamp dev i w) as [[] w1|e w1] eqn:He;
      [|discriminate].
    pose proof (train_epoch_advanced _ _ _ _ _ _ He) as H1.
    destruct (IH (i + 1)%Z w1 Hrun) as [H2 Hlast].
    assert (writer_step w1 = (writer_step w + Z.of_nat (length (loader cfg)))%Z) as Hws.
    { destruct H1 as (_ & -> & _). reflexivity. }
    assert (is_Some (loss_D w1)) as Hsome.
    { unfold train_epoch in He. rewrite bind_run in He.
      destruct (for_each _ _ w) as [[] w2|e w2]; [|discriminate].
      cbv beta iota in He.
      rewrite bind_run, log_sample_images_run in He. cbv beta iota in He.
      rewrite bind_run, save_models_run in He. cbv beta iota in He.
      rewrite log_epoch_run in He. cbn [loss_D loss_G] in He.
      destruct (loss_D w2) as [d|] eqn:Hd; [|discriminate].
      destruct (loss_G w2) as [g|]; [|discriminate].
      inversion He; subst w1. cbn [loss_D]. eauto. }
    replace (Z.to_nat (stop - i)) with (S (Z.to_nat (stop - (i + 1)))) by lia.
    rewrite Hws in H2. rewrite epochs_notes_S. split.
    + exact (advanced_trans cfg _ 1 _ _ _ _ w w1 w' H1 H2).
    + right. destruct Hlast as [->|Hlast]; [exact Hsome | exact Hlast].
Qed.

(** The store in which the loop over the epochs starts, in full. *)
Lemma train_start cfg fuel (w : world) :
  exists w1,
    train cfg fuel w =
      match for_epochs fuel (epochs_range (epochs cfg))
              (train_epoch cfg (wallclock w (instant w)) (selected_device w)) w1 with
      | Running w2 => Running w2
      | Finished (Raise e w2) => Finished (Raise e w2)
      | Finished (Ok _ w2) => Finished (emit EvClose w2)
      end /\
    notes (trace w1)
    = notes (trace w) ++ setup_notes (wallclock w (instant w)) (selected_device w) /\
    writer_step w1 = 0%Z /\ steps_G w1 = steps_G w /\ steps_D w1 = steps_D w /\
    draws w1 = draws w /\ files w1 = files w /\
    loss_D w1 = None /\ loss_G w1 = None.
Proof.
  unfold train. rewrite train_setup_run. cbv beta iota zeta.
  eexists. split; [reflexivity|].
  cbn [trace writer_step steps_G steps_D draws files loss_D loss_G].
  rewrite notes_app. repeat split; reflexivity.
Qed.

(** X8: what a call of [train] shows to the outside, call by call.  A
    call with an integer number of epochs that returns has opened the writer
    under runs/wgan_wc_<timestamp>, moved both networks to the selected
    device, then for every epoch [e = 0, 1, ...] moved every batch to that
    device and logged the two losses under one step, the steps counting the
    batches of the whole run from 0, logged images under step [e], saved to
    the two checkpoint paths, logged that it saved and logged the record of
    epoch [e + 1]; closing the writer is the last call.  A call that is
    still iterating has shown the same without the closing. *)
Theorem train_shows cfg fuel (w0 : world) :
  let timestamp := wallclock w0 (instant w0) in
  let dev := selected_device w0 in
  let batches := length (loader cfg) in
  (forall N w',
     epochs cfg = EpochsInt N ->
     train cfg fuel w0 = Finished (Ok tt w') ->
     notes (trace w')
     = notes (trace w0) ++ setup_notes timestamp dev
       ++ epochs_notes timestamp dev batches 0 0 (Z.to_nat N) ++ [NClose]) /\
  (forall w',
     train cfg fuel w0 = Running w' ->
     notes (trace w')
     = notes (trace w0) ++ setup_notes timestamp dev
       ++ epochs_notes timestamp dev batches 0 0 fuel).
Proof.
  cbv zeta.
  destruct (train_start cfg fuel w0) as (w1 & -> & Hn & Hws & _). split.
  - intros N w' HN Hrun. rewrite HN in Hrun. cbn [epochs_range] in Hrun.
    destruct (for_epochs _ _ _ w1) as [[[] w2|e w2]|w2] eqn:Hloop; try discriminate.
    apply for_epochs_finished in Hloop as [(Hshown & _) _].
    rewrite emit_run in Hrun. inversion Hrun; subst w'. cbn [trace].
    rewrite notes_app, Hshown, Hn, Hws, Z.sub_0_r, <- !app_assoc. reflexivity.
  - intros w' Hrun.
    destruct (for_epochs _ _ _ w1) as [[[] w2|e w2]|w2] eqn:Hloop; try discriminate.
    inversion Hrun; subst w2.
    apply for_epochs_running in Hloop as (Hshown & _).
    rewrite Hshown, Hn, Hws, <- !app_assoc.
    destruct (epochs cfg); reflexivity.
Qed.

(** X9: after a call with [N] epochs on a loader of [L] batches has
    returned, the step counter is [N * L], the generator has taken [N * L]
    optimizer steps and the critic [n_critic] times as many, and the random
    generator has been called [2 * n_critic + 1] times per batch and once
    more per epoch. *)
Theorem train_totals cfg fuel (w0 w' : world) (N : Z) :
  epochs cfg = EpochsInt N ->
  train cfg fuel w0 = Finished (Ok tt w') ->
  let batches := (Z.to_nat N * length (loader cfg))%nat in
  writer_step w' = Z.of_nat batches /\
  steps_G w' = (steps_G w0 + batches)%nat /\
  Z.of_nat (steps_D w') = (Z.of_nat (steps_D w0) + Z.of_nat batches * n_critic cfg)%Z /\
  Z.of_nat (draws w')
  = (Z.of_nat (draws w0) + Z.of_nat batches * (2 * n_critic cfg + 1)
     + Z.of_nat (Z.to_nat N))%Z.
Proof.
  intros HN Hrun. cbv zeta.
  pose proof (train_in_train cfg fuel w0) as Hin. rewrite Hrun in Hin. cbn in Hin.
  destruct (train_start cfg fuel w0) as (w1 & Heq & _ & Hws & HG & HD & Hd & _ & HlD & _).
  rewrite Heq, HN in Hrun. cbn [epochs_range] in Hrun.
  destruct (for_epochs _ _ _ w1) as [[[] w2|e w2]|w2] eqn:Hloop; try discriminate.
  apply for_epochs_finished in Hloop as [(_ & Hws2 & HG2 & HD2 & Hd2) Hlast].
  rewrite emit_run in Hrun. inversion Hrun; subst w'; clear Hrun.
  cbn [writer_step steps_G steps_D draws loss_D] in *.
  rewrite Z.sub_0_r in *.
  rewrite Hws2, HG2, HD2, Hd2, Hws, HG, HD, Hd.
  assert (Z.to_nat N = 0%nat \/ (1 <= n_critic cfg)%Z) as [Hzero|Hn].
  { destruct Hlast as [->|Hsome]; [|right; exact (Hin Hsome)].
    (* no store is left unchanged by an epoch: the generator has advanced *)
    left. lia. }
  - rewrite Hzero. cbn. repeat split; lia.
  - repeat split; nia.
Qed.

(** ** When the writer is closed *)

Lemma writer_open_refl (w : world) : writer_open w w.
Proof. exists []. rewrite app_nil_r. split; [reflexivity | constructor]. Qed.

Lemma writer_open_trans (w1 w2 w3 : world) :
  writer_open w1 w2 -> writer_open w2 w3 -> writer_open w1 w3.
Proof.
  intros (s1 & H1 & F1) (s2 & H2 & F2). exists (s1 ++ s2).
  rewrite H2, H1, app_assoc. split; [reflexivity | now apply Forall_app].
Qed.

Lemma advanced_writer_open cfg b e shown (w w' : world) :
  advanced cfg b e shown w w' -> Forall (fun n => n <> NClose) shown ->
  writer_open w w'.
Proof. intros (Hn & _) Hs. exists shown. done. Qed.

Lemma batches_notes_open dev s n : Forall (fun x => x <> NClose) (batches_notes dev s n).
Proof.
  unfold batches_notes. apply Forall_concat, Forall_forall. intros l Hl.
  apply list_elem_of_In, in_map_iff in Hl as (k & <- & _).
  repeat constructor; discriminate.
Qed.

(** One batch, however it ends. *)
Lemma train_batch_writer_open cfg dev epoch (b : nat * nat) (w : world) :
  writer_open w (final (train_batch cfg dev epoch b w)).
Proof.
  destruct (train_batch cfg dev epoch b w) as [[] w'|e w'] eqn:Hrun.
  - eapply advanced_writer_open; [exact (train_batch_advanced _ _ _ _ _ _ Hrun)|].
    repeat constructor; discriminate.
  - unfold train_batch in Hrun.
    rewrite bind_run, emit_run in Hrun. cbv beta iota in Hrun. rewrite bind_run in Hrun.
    match type of Hrun with context [for_each _ _ ?w0] =>
      destruct (critic_loop_run cfg dev (RealBatch epoch b.1) b.2 (range (n_critic cfg)) w0)
        as (w1 & Hloop & Htr & _)
    end.
    rewrite Hloop in Hrun. cbv beta iota in Hrun.
    rewrite bind_run, generator_update_run in Hrun. cbv beta iota zeta in Hrun.
    rewrite log_losses_run in Hrun.
    cbn [trace loss_D loss_G] in *.
    destruct (loss_D w1) as [d|]; inversion Hrun; subst w'; clear Hrun;
      unfold writer_open; cbn [final trace];
      rewrite Htr, !notes_app, critic_steps_notes; cbn;
      rewrite !app_nil_r; eexists; (split; [reflexivity|]);
      repeat constructor; discriminate.
Qed.

Lemma train_batches_writer_open cfg dev epoch (l : list (nat * nat)) (w : world) :
  writer_open w (final (for_each l (train_batch cfg dev epoch) w)).
Proof.
  revert w. induction l as [|b l IH]; intros w; [apply writer_open_refl|].
  cbn [for_each]. rewrite bind_run.
  pose proof (train_batch_writer_open cfg dev epoch b w) as Hb.
  destruct (train_batch cfg dev epoch b w) as [[] w1|e w1]; cbn [final] in *.
  - eapply writer_open_trans; [exact Hb | apply IH].
  - exact Hb.
Qed.

Lemma train_epoch_writer_open cfg timestamp dev epoch (w : world) :
  writer_open w (final (train_epoch cfg timestamp dev epoch w)).
Proof.
  unfold train_epoch. rewrite bind_run.
  pose proof (train_batches_writer_open cfg dev epoch (enumerate (loader cfg)) w) as Hb.
  destruct (for_each _ _ w) as [[] w1|e w1]; cbn [final] in Hb; [|exact Hb].
  eapply writer_open_trans; [exact Hb|]. cbv beta iota.
  rewrite bind_run, log_sample_images_run. cbv beta iota.
  rewrite bind_run, save_models_run. cbv beta iota. rewrite log_epoch_run.
  cbn [trace loss_D loss_G].
  destruct (loss_D w1) as [d|]; [destruct (loss_G w1) as [g|]|];
    unfold writer_open; cbn [final trace]; rewrite !notes_app; cbn;
    rewrite ?app_nil_r, <- ?app_assoc; eexists; (split; [reflexivity|]);
    repeat constructor; discriminate.
Qed.

Lemma for_epochs_writer_open cfg timestamp dev fuel it (w : world) :
  writer_open w (reached (for_epochs fuel it (train_epoch cfg timestamp dev) w)).
Proof.
  revert it w. induction fuel as [|fuel IH]; intros it w.
  - cbn. destruct (next it) as [[epoch it']|]; apply writer_open_refl.
  - cbn [for_epochs]. destruct (next it) as [[epoch it']|]; [|apply writer_open_refl].
    pose proof (train_epoch_writer_open cfg timestamp dev epoch w) as He.
    destruct (train_epoch cfg timestamp dev epoch w) as [[] w1|e w1]; cbn [final] in He.
    + eapply writer_open_trans; [exact He | apply IH].
    + exact He.
Qed.

(** X10: the summary writer is closed exactly when the loop over the
    epochs is left normally, and then as the last call; a call that an
    exception ends, or that is still iterating, has not closed it. *)
Theorem train_closes_writer cfg fuel (w0 : world) :
  (forall w',
     train cfg fuel w0 = Finished (Ok tt w') ->
     exists shown,
       notes (trace w') = notes (trace w0) ++ shown ++ [NClose] /\
       Forall (fun n => n <> NClose) shown) /\
  (forall e w', train cfg fuel w0 = Finished (Raise e w') -> writer_open w0 w') /\
  (forall w', train cfg fuel w0 = Running w' -> writer_open w0 w').
Proof.
  destruct (train_start cfg fuel w0) as (w1 & -> & Hn & _).
  assert (writer_open w0 w1) as H01.
  { eexists. split; [exact Hn|]. repeat constructor; discriminate. }
  pose proof (for_epochs_writer_open cfg (wallclock w0 (instant w0))
                (selected_device w0) fuel (epochs_range (epochs cfg)) w1) as Hloop.
  destruct (for_epochs _ _ _ w1) as [[[] w2|e w2]|w2]; cbn [reached final] in Hloop;
    pose proof (writer_open_trans _ _ _ H01 Hloop) as H02;
    (split; [|split]); try discriminate.
  - intros w' Hw'. rewrite emit_run in Hw'. inversion Hw'; subst w'. cbn [trace].
    destruct H02 as (shown & Hs & Hopen). exists shown.
    rewrite notes_app, Hs, <- app_assoc. done.
  - intros e' w' Hw'. inversion Hw'; subst. exact H02.
  - intros w' Hw'. inversion Hw'; subst. exact H02.
Qed.

(** ** Calls that cannot log a loss *)

Lemma range_nonpositive (n : Z) : (n <= 0)%Z -> range n = [].
Proof.
  intros Hn. apply length_zero_iff_nil. rewrite length_range. lia.
Qed.

(** A first batch without critic update. *)
Lemma train_batch_unbound cfg dev epoch (b : nat * nat) (w : world) :
  (n_critic cfg <= 0)%Z -> loss_D w = None ->
  exists w',
    train_batch cfg dev epoch b w = Raise UnboundLocalError w' /\
    steps_G w' = S (steps_G w) /\ steps_D w' = steps_D w /\
    files w' = files w /\
    notes (trace w') = notes (trace w) ++ [NMove dev].
Proof.
  intros Hn HlD. unfold train_batch.
  rewrite bind_run, emit_run. cbv beta iota. rewrite bind_run.
  rewrite (range_nonpositive _ Hn). cbn [for_each]. unfold mret at 1, M_ret at 1.
  cbv beta iota.
  rewrite bind_run, generator_update_run. cbv beta iota zeta.
  rewrite log_losses_run.
  cbn [trace draws steps_D steps_G grad_G writer_step loss_G files
       cuda_is_available mps_is_available wallclock loss_D instant grad_D].
  rewrite HlD. eexists. split; [reflexivity|].
  cbn [steps_G steps_D files trace]. rewrite !notes_app. cbn.
  rewrite app_nil_r. done.
Qed.

Lemma epochs_range_starts (a : epochs_arg) :
  a = EpochsInf \/ (exists N, a = EpochsInt N /\ (0 < N)%Z) ->
  exists it', next (epochs_range a) = Some (0%Z, it').
Proof.
  intros [->|(N & -> & HN)]; cbn; [eauto|].
  destruct (Z.ltb_spec 0 N); [eauto | lia].
Qed.

(** The first batch of a call without critic update. *)
Lemma train_first_batch_unbound cfg fuel (w0 : world) :
  (n_critic cfg <= 0)%Z ->
  loader cfg <> [] ->
  epochs cfg = EpochsInf \/ (exists N, epochs cfg = EpochsInt N /\ (0 < N)%Z) ->
  exists w',
    train cfg (S fuel) w0 = Finished (Raise UnboundLocalError w') /\
    steps_G w' = S (steps_G w0) /\ steps_D w' = steps_D w0 /\
    files w' = files w0 /\
    notes (trace w')
    = notes (trace w0)
      ++ setup_notes (wallclock w0 (instant w0)) (selected_device w0)
      ++ [NMove (selected_device w0)].
Proof.
  intros Hn Hl Hepochs.
  destruct (train_start cfg (S fuel) w0)
    as (w1 & -> & Hnotes & _ & HG & HD & _ & Hf & HlD & _).
  destruct (epochs_range_starts _ Hepochs) as [it' Hnext].
  cbn [for_epochs]. rewrite Hnext.
  unfold train_epoch. rewrite bind_run.
  destruct (loader cfg) as [|size sizes]; [done|].
  cbn [enumerate imap for_each]. rewrite bind_run.
  destruct (train_batch_unbound cfg (selected_device w0) 0 (0%nat, size) w1 Hn HlD)
    as (w' & -> & HG' & HD' & Hf' & Hnotes').
  exists w'. split; [reflexivity|].
  rewrite HG', HD', Hf', Hnotes', Hnotes, HG, HD, Hf, <- app_assoc. done.
Qed.

(** X11: with [n_critic <= 0], a loader that yields a batch and at least
    one epoch to run, [train] raises UnboundLocalError in its first batch,
    when the critic loss is to be logged: the generator has taken one
    optimizer step, the critic none, no loss was logged and no file
    written. *)
Theorem train_without_critic_update cfg fuel (w0 : world) :
  (n_critic cfg <= 0)%Z ->
  loader cfg <> [] ->
  epochs cfg = EpochsInf \/ (exists N, epochs cfg = EpochsInt N /\ (0 < N)%Z) ->
  exists w',
    train cfg (S fuel) w0 = Finished (Raise UnboundLocalError w') /\
    steps_G w' = S (steps_G w0) /\ steps_D w' = steps_D w0 /\
    files w' = files w0 /\
    notes (trace w')
    = notes (trace w0)
      ++ setup_notes (wallclock w0 (instant w0)) (selected_device w0)
      ++ [NMove (selected_device w0)].
Proof. apply train_first_batch_unbound. Qed.

(** X12: with a loader that yields no batch and at least one epoch to
    run, [train] raises UnboundLocalError at the end of the first epoch, when
    the losses are to be logged: by then it has logged images, saved the
    parameters of both untrained networks to the two checkpoint paths and
    logged that it saved. *)
Theorem train_on_empty_loader cfg fuel (w0 : world) :
  loader cfg = [] ->
  epochs cfg = EpochsInf \/ (exists N, epochs cfg = EpochsInt N /\ (0 < N)%Z) ->
  let timestamp := wallclock w0 (instant w0) in
  exists w',
    train cfg (S fuel) w0 = Finished (Raise UnboundLocalError w') /\
    steps_G w' = steps_G w0 /\ steps_D w' = steps_D w0 /\
    files w' = <[dw_path timestamp := (netD, steps_D w0)]>
                 (<[gw_path timestamp := (netG, steps_G w0)]> (files w0)) /\
    notes (trace w')
    = notes (trace w0) ++ setup_notes timestamp (selected_device w0)
      ++ [NImages 0; NSave netG (gw_path timestamp); NSave netD (dw_path timestamp);
          NSaved ("snapshots/gw_" +:+ timestamp +:+ ".pth")
                 ("snapshots/dw_" +:+ timestamp +:+ ".pth")].
Proof.
  intros Hl Hepochs. cbv zeta.
  destruct (train_start cfg (S fuel) w0)
    as (w1 & -> & Hnotes & _ & HG & HD & _ & Hf & HlD & _).
  destruct (epochs_range_starts _ Hepochs) as [it' Hnext].
  cbn [for_epochs]. rewrite Hnext.
  unfold train_epoch. rewrite Hl. cbn [enumerate imap for_each].
  rewrite bind_run. unfold mret at 1, M_ret at 1. cbv beta iota.
  rewrite bind_run, log_sample_images_run. cbv beta iota.
  rewrite bind_run, save_models_run. cbv beta iota. rewrite log_epoch_run.
  cbn [trace draws steps_D steps_G grad_G writer_step loss_G files
       cuda_is_available mps_is_available wallclock loss_D instant grad_D].
  rewrite HlD. eexists. split; [reflexivity|].
  cbn [steps_G steps_D files trace]. rewrite !notes_app, Hnotes, HG, HD, Hf. cbn.
  rewrite <- !app_assoc. done.
Qed.

(** ** The statements on concrete calls *)

Lemma get_device_selected (w : world) : get_device w = Ok (selected_device w) w.
Proof.
  unfold get_device, selected_device.
  destruct (cuda_is_available w); [reflexivity|].
  destruct (mps_is_available w); reflexivity.
Qed.

(** Two epochs of one batch each on the CPU. *)
Lemma train_shows_witness :
  (exists w',
     train (example_config (EpochsInt 2)) 2 example_world = Finished (Ok tt w') /\
     notes (trace w')
     = [NWriter "runs/wgan_wc_20250101000000"; NMove cpu; NMove cpu;
        NMove cpu; NScalar "Loss/Critic" 0; NScalar "Loss/Generator" 0;
        NImages 0; NSave netG "./snapshots/gw_20250101000000.pth";
        NSave netD "./snapshots/dw_20250101000000.pth";
        NSaved "snapshots/gw_20250101000000.pth" "snapshots/dw_20250101000000.pth";
        NEpoch 1;
        NMove cpu; NScalar "Loss/Critic" 1; NScalar "Loss/Generator" 1;
        NImages 1; NSave netG "./snapshots/gw_20250101000000.pth";
        NSave netD "./snapshots/dw_20250101000000.pth";
        NSaved "snapshots/gw_20250101000000.pth" "snapshots/dw_20250101000000.pth";
        NEpoch 2;
        NClose]) /\
  (exists w',
     train (example_config EpochsInf) 1 example_world = Running w' /\
     notes (trace w')
     = [NWriter "runs/wgan_wc_20250101000000"; NMove cpu; NMove cpu;
        NMove cpu; NScalar "Loss/Critic" 0; NScalar "Loss/Generator" 0;
        NImages 0; NSave netG "./snapshots/gw_20250101000000.pth";
        NSave netD "./snapshots/dw_20250101000000.pth";
        NSaved "snapshots/gw_20250101000000.pth" "snapshots/dw_20250101000000.pth";
        NEpoch 1]).
Proof.
  split.
  - destruct (example_config_runs (EpochsInt 2)) as [Hn Hl].
    destruct (train_int_returns (example_config (EpochsInt 2)) example_world 2 2
                eq_refl (le_n _) Hn Hl) as (w' & Hrun & _).
    destruct (train_shows (example_config (EpochsInt 2)) 2 example_world) as [Hint _].
    exists w'. split; [exact Hrun|]. exact (Hint 2%Z w' eq_refl Hrun).
  - destruct (example_config_runs EpochsInf) as [Hn Hl].
    destruct (train_inf (example_config EpochsInf) example_world 1 eq_refl)
      as [_ Hrunning].
    destruct (Hrunning Hn Hl) as (w' & Hrun & _).
    destruct (train_shows (example_config EpochsInf) 1 example_world) as [_ Hr].
    exists w'. split; [exact Hrun|]. exact (Hr w' Hrun).
Defined.

Lemma train_totals_witness :
  exists w',
    train (example_config (EpochsInt 2)) 2 example_world = Finished (Ok tt w') /\
    writer_step w' = 2%Z /\ steps_G w' = 2%nat /\
    Z.of_nat (steps_D w') = 2%Z /\ Z.of_nat (draws w') = 8%Z.
Proof.
  destruct (example_config_runs (EpochsInt 2)) as [Hn Hl].
  destruct (train_int_returns (example_config (EpochsInt 2)) example_world 2 2
              eq_refl (le_n _) Hn Hl) as (w' & Hrun & _).
  exists w'. split; [exact Hrun|].
  exact (train_totals (example_config (EpochsInt 2)) 2 example_world w' 2 eq_refl Hrun).
Defined.

Lemma train_without_critic_update_witness :
  exists w',
    train config_without_critic_update 1 example_world
    = Finished (Raise UnboundLocalError w') /\
    steps_G w' = 1%nat /\ steps_D w' = 0%nat /\ files w' = ∅ /\
    notes (trace w')
    = [NWriter "runs/wgan_wc_20250101000000"; NMove cpu; NMove cpu; NMove cpu].
Proof.
  apply (train_without_critic_update config_without_critic_update 0 example_world).
  - cbn. lia.
  - discriminate.
  - right. exists 1%Z. split; [reflexivity | lia].
Defined.

Lemma train_on_empty_loader_witness :
  exists w',
    train config_with_empty_loader 1 example_world
    = Finished (Raise UnboundLocalError w') /\
    steps_G w' = 0%nat /\ steps_D w' = 0%nat /\
    files w' = <[dw_path "20250101000000" := (netD, 0%nat)]>
                 (<[gw_path "20250101000000" := (netG, 0%nat)]> ∅) /\
    notes (trace w')
    = [NWriter "runs/wgan_wc_20250101000000"; NMove cpu; NMove cpu;
       NImages 0; NSave netG "./snapshots/gw_20250101000000.pth";
       NSave netD "./snapshots/dw_20250101000000.pth";
       NSaved "snapshots/gw_20250101000000.pth" "snapshots/dw_20250101000000.pth"].
Proof.
  apply (train_on_empty_loader config_with_empty_loader 0 example_world).
  - reflexivity.
  - right. exists 1%Z. split; [reflexivity | lia].
Defined.

Lemma train_closes_writer_witness :
  (exists w' shown,
     train (example_config (EpochsInt 2)) 2 example_world = Finished (Ok tt w') /\
     notes (trace w') = shown ++ [NClose] /\ Forall (fun n => n <> NClose) shown) /\
  (exists w',
     train config_without_critic_update 1 example_world
     = Finished (Raise UnboundLocalError w') /\
     writer_open example_world w').
Proof.
  split.
  - destruct (example_config_runs (EpochsInt 2)) as [Hn Hl].
    destruct (train_int_returns (example_config (EpochsInt 2)) example_world 2 2
                eq_refl (le_n _) Hn Hl) as (w' & Hrun & _).
    destruct (train_closes_writer (example_config (EpochsInt 2)) 2 example_world)
      as [Hok _].
    destruct (Hok w' Hrun) as (shown & Hs & Hopen).
    exists w', shown. split; [exact Hrun|]. split; [exact Hs | exact Hopen].
  - destruct (train_first_batch_unbound config_without_critic_update 0 example_world)
      as (w' & Hrun & _).
    + cbn. lia.
    + discriminate.
    + right. exists 1%Z. split; [reflexivity | lia].
    + destruct (train_closes_writer config_without_critic_update 1 example_world)
        as (_ & Hraise & _).
      exists w'. split; [exact Hrun|]. exact (Hraise _ _ Hrun).
Defined.
